(** * Wakili front end

    A shallow embedding of [src/wakili_frontend/index.js]: the session
    bootstrap, the click handlers of the command buttons and the view
    renderers, followed by the properties of the specification that were
    checked against them.

    The page is a record of the elements the script holds on to, the
    module-level [let] bindings are a record of their own, and everything the
    host or the network decides (replies of the canister, outcome of the
    provider calls, the locale's date format) is collected in an environment
    record that the handlers read.  Handlers are written in a small state and
    exception monad so that [try]/[catch]/[finally] read as in the script. *)

From Stdlib Require Import String Ascii List ZArith Bool Lia.
From Stdlib Require Import DecimalString.
Import ListNotations.
Open Scope string_scope.

(** ** The fragment of the language the script relies on *)

Module JS.

(** A JS string is taken as a sequence of characters; [length] counts
    them (one character per code unit). *)

(** Thrown values.  [message] is what [error.message] reads. *)
Inductive error : Type :=
| TypeError (message : string)
| RangeError (message : string)
| Error (message : string).

Definition message (e : error) : string :=
  match e with
  | TypeError m | RangeError m | Error m => m
  end.

(** Completion of an expression: a value or a thrown error.  The same type
    describes a settled promise (fulfilled or rejected). *)
Inductive result (A : Type) : Type :=
| Ok (a : A)
| Throw (e : error).
Arguments Ok {A} a.
Arguments Throw {A} e.

(** Numbers.  The script only computes Numbers out of BigInts and strings of
    digits, so integer-valued doubles and NaN are all that is kept. *)
Inductive number : Type :=
| NaN
| Finite (z : Z).

(** Primitive values that reach an arithmetic operator in the script. *)
Inductive prim : Type :=
| PUndefined
| PNull
| PBool (b : bool)
| PNumber (n : number)
| PBigInt (z : Z)
| PString (s : string).

(** [ToBoolean] on strings: only the empty string is falsy. *)
Definition truthy (s : string) : bool :=
  match s with
  | EmptyString => false
  | String _ _ => true
  end.

(** [a || null] for a string [a]; [None] stands for [null]. *)
Definition or_null (s : string) : option string :=
  if truthy s then Some s else None.

(** [a || b] for strings. *)
Definition or_else (a b : string) : string :=
  if truthy a then a else b.

(** *** Strings *)

Definition is_white_space (c : ascii) : bool :=
  let n := nat_of_ascii c in
  (Nat.eqb n 9 || Nat.eqb n 10 || Nat.eqb n 11 || Nat.eqb n 12
   || Nat.eqb n 13 || Nat.eqb n 32 || Nat.eqb n 160)%bool.

Fixpoint trimStart (s : string) : string :=
  match s with
  | EmptyString => EmptyString
  | String c r => if is_white_space c then trimStart r else s
  end.

Fixpoint trimEnd (s : string) : string :=
  match s with
  | EmptyString => EmptyString
  | String c r =>
      let r' := trimEnd r in
      if (is_white_space c && negb (truthy r'))%bool then EmptyString
      else String c r'
  end.

(** [s.trim()] *)
Definition trim (s : string) : string := trimEnd (trimStart s).

(** [s.substring(start, end)]: both bounds are clamped to the length and
    swapped when out of order. *)
Definition substring (s : string) (start end_ : nat) : string :=
  let lo := Nat.min start end_ in
  let hi := Nat.max start end_ in
  String.substring lo (hi - lo) s.

(** [s.split(sep)] for a one-character separator. *)
Fixpoint split_aux (sep : ascii) (cur : string) (s : string) : list string :=
  match s with
  | EmptyString => [cur]
  | String c r =>
      if Ascii.eqb c sep then cur :: split_aux sep EmptyString r
      else split_aux sep (cur ++ String c EmptyString) r
  end.

Definition split (s : string) (sep : ascii) : list string :=
  split_aux sep EmptyString s.

(** [a[i]] on an array of strings: a slot past the end reads [undefined]. *)
Definition index (a : list string) (i : nat) : prim :=
  match nth_error a i with
  | Some s => PString s
  | None => PUndefined
  end.

(** [s.replace(/pat/g, rep)] for a literal, non-empty pattern: matches are
    found left to right and do not overlap.  [skip] counts the characters of
    the current match still to be dropped. *)
Fixpoint replace_aux (pat rep : string) (skip : nat) (s : string) : string :=
  match s with
  | EmptyString => EmptyString
  | String c r =>
      match skip with
      | S k => replace_aux pat rep k r
      | O =>
          if String.prefix pat s
          then rep ++ replace_aux pat rep (String.length pat - 1) r
          else String c (replace_aux pat rep 0 r)
      end
  end.

Definition replace_all (s pat rep : string) : string :=
  replace_aux pat rep 0 s.

(** *** Numeric conversions *)

Definition is_digit (c : ascii) : bool :=
  let n := nat_of_ascii c in (Nat.leb 48 n && Nat.leb n 57)%bool.

Fixpoint all_digits (s : string) : bool :=
  match s with
  | EmptyString => true
  | String c r => (is_digit c && all_digits r)%bool
  end.

Fixpoint digits_value (acc : Z) (s : string) : Z :=
  match s with
  | EmptyString => acc
  | String c r => digits_value (10 * acc + Z.of_nat (nat_of_ascii c - 48)) r
  end.

(** Nearest double of an integer (round to nearest, ties to even): exact up
    to 2^53, 53 significant bits beyond. *)
Definition round_double (z : Z) : Z :=
  let a := Z.abs z in
  let e := (Z.log2 a - 52)%Z in
  if (e <=? 0)%Z then z
  else
    let q := Z.shiftr a e in
    let r := (a - Z.shiftl q e)%Z in
    let half := Z.shiftl 1 (e - 1) in
    let q' := if ((half <? r) || ((half =? r) && Z.odd q))%Z%bool
              then (q + 1)%Z else q in
    (Z.sgn z * Z.shiftl q' e)%Z.

(** [StringToNumber] on the literals the backend's ids carry: a run of
    decimal digits (surrounding white space allowed), the empty string being
    0.  Every other string is folded into NaN; the one operator applied to
    the result, division by a BigInt, does not read it. *)
Definition StringToNumber (s : string) : number :=
  let t := trim s in
  if all_digits t then Finite (round_double (digits_value 0 t)) else NaN.

(** [ToNumeric]: a BigInt stays a BigInt, every other primitive goes
    through [ToNumber]. *)
Inductive numeric : Type :=
| NumberVal (n : number)
| BigIntVal (z : Z).

Definition ToNumeric (v : prim) : numeric :=
  match v with
  | PUndefined => NumberVal NaN
  | PNull => NumberVal (Finite 0)
  | PBool b => NumberVal (Finite (if b then 1 else 0))
  | PNumber n => NumberVal n
  | PBigInt z => BigIntVal z
  | PString s => NumberVal (StringToNumber s)
  end.

(** [v / d] where the right operand is a BigInt literal [d] (the script
    only ever divides by [1000000n]).  A BigInt dividend is divided with
    truncation toward zero; a dividend of type Number is a type mismatch. *)
Definition div_BigInt (v : prim) (d : Z) : result Z :=
  match ToNumeric v with
  | BigIntVal z =>
      if (d =? 0)%Z then Throw (RangeError "Division by zero")
      else Ok (Z.quot z d)
  | NumberVal _ =>
      Throw (TypeError "Cannot mix BigInt and other types, use explicit conversions")
  end.

(** [Number(z)] for a BigInt [z]. *)
Definition Number_of_BigInt (z : Z) : number := Finite (round_double z).

(** [String(z)] for a BigInt [z], as a template literal prints it. *)
Definition BigInt_toString (z : Z) : string :=
  NilZero.string_of_int (Z.to_int z).

(** *** Dates *)

(** A Date object is its time value in milliseconds, or invalid. *)
Inductive Date : Type :=
| InvalidDate
| TimeValue (ms : Z).

(** [new Date(n)]: [TimeClip] rejects NaN and anything beyond 8.64e15 ms. *)
Definition new_Date (n : number) : Date :=
  match n with
  | NaN => InvalidDate
  | Finite z =>
      if (Z.abs z <=? 8640000000000000)%Z then TimeValue z else InvalidDate
  end.

(** *** Method lookup on arrays *)

Definition Array_prototype : list string :=
  [ "at"; "concat"; "copyWithin"; "entries"; "every"; "fill"; "filter";
    "find"; "findIndex"; "findLast"; "findLastIndex"; "flat"; "flatMap";
    "forEach"; "includes"; "indexOf"; "join"; "keys"; "lastIndexOf"; "map";
    "pop"; "push"; "reduce"; "reduceRight"; "reverse"; "shift"; "slice";
    "some"; "sort"; "splice"; "toLocaleString"; "toReversed"; "toSorted";
    "toSpliced"; "toString"; "unshift"; "values"; "with"; "constructor" ].

Definition Object_prototype : list string :=
  [ "hasOwnProperty"; "isPrototypeOf"; "propertyIsEnumerable";
    "toLocaleString"; "toString"; "valueOf"; "constructor" ].

(** Whether reading property [key] of an array yields a function: the key
    is looked up along Array.prototype and Object.prototype (indices and
    [length] hold data, not functions). *)
Definition array_method (key : string) : bool :=
  existsb (String.eqb key) (Array_prototype ++ Object_prototype).

End JS.

(** ** The page, the session and the environment *)

Module Wakili.
Import JS.

(** *** Data exchanged with the backend canister *)

(** Request of [generate_legal_advice] and [generate_legal_document];
    [None] is [null]. *)
Record Request : Type := mkRequest {
  prompt : string;
  document_type : option string;
  context : option string;
  is_confidential : bool
}.

(** Reply of the two generation methods, typed as the handlers read it:
    [status] and [response] are text, [document] may be missing. *)
Record Response : Type := mkResponse {
  status : string;
  response : string;
  document : option string
}.

(** Profile record.  An optional text arrives as an array of zero or one
    strings (the script itself reads [profile.name.length] and
    [profile.name[0]]); the two counters are BigInts. *)
Record UserProfile : Type := mkUserProfile {
  name : list string;
  document_count : Z;
  last_active : Z
}.

Inductive Service : Type :=
| wakili_backend
| internet_identity.

(** What leaves the browser, in order. *)
Inductive call : Type :=
| generate_legal_advice (r : Request)
| generate_legal_document (r : Request)
| get_user_profile
| get_user_documents
| get_document (id : option string)
| update_user_name (n : string)
| fetchRootKey (host : string)
| login (identityProvider : option string).

(** *** Environment: what the host and the network decide *)

Record Env : Type := mkEnv {
  DFX_NETWORK : option string;            (* process.env.DFX_NETWORK *)
  plug : bool;                            (* window.ic?.plug is there *)
  plug_createAgent : result unit;         (* window.ic.plug.createAgent(..) *)
  AuthClient_create : result unit;        (* AuthClient.create() *)
  isAuthenticated : result bool;          (* first authClient.isAuthenticated() *)
  principal : string;                     (* authClient.getPrincipal() *)
  authClient_login : result unit;         (* authClient.login(..) *)
  isAuthenticated_after_login : result bool;
  agent_fetchRootKey : result unit;       (* agent.fetchRootKey() *)
  createActor : Service -> result unit;   (* Actor.createActor(..) *)
  reply_generate_legal_advice : Request -> result Response;
  reply_generate_legal_document : Request -> result Response;
  reply_get_user_profile : result UserProfile;
  reply_get_user_documents : result (list (string * string));
  reply_get_document : option string -> result string;
  reply_update_user_name : string -> result unit;
  toLocaleString : Date -> string;        (* date.toLocaleString('en-US', ..) *)
  today : string                          (* new Date().toISOString().slice(0,10) *)
}.

(** *** The page *)

Record Button : Type := mkButton {
  disabled : bool;
  innerHTML : string
}.

(** Text of a piece of markup: everything between [<] and [>] is dropped.
    This is the text the page reports for markup made of plain text and
    tags; character references are not decoded and the escaping done when
    markup is read back is not applied, so labels that carry [&], a stray
    [<] or [>], or characters outside printable ASCII are outside this
    reading (see [simple_label] below). *)
Fixpoint strip_tags (inside : bool) (s : string) : string :=
  match s with
  | EmptyString => EmptyString
  | String c r =>
      if inside then strip_tags (negb (Ascii.eqb c ">")) r
      else if Ascii.eqb c "<" then strip_tags true r
      else String c (strip_tags false r)
  end.

(** [button.textContent] *)
Definition textContent (button : Button) : string :=
  strip_tags false (innerHTML button).

Record Buttons : Type := mkButtons {
  getAdviceBtn : Button;
  generateDocBtn : Button;
  saveDocBtn : Button;
  updateNameBtn : Button
}.

(** Values of the form controls. *)
Record Form : Type := mkForm {
  advicePrompt : string;
  adviceContext : string;
  confidentialCheck : bool;
  docType : string;
  docPrompt : string;
  docContext : string;
  docConfidentialCheck : bool;
  userNameInput : string
}.

(** One entry of the document list. *)
Record DocCard : Type := mkDocCard {
  card_title : string;
  card_date : string;
  card_preview : string;
  card_docId : string;
  card_listeners : nat       (* click listeners on its View button *)
}.

(** Children of [documentsList]: a placeholder paragraph (its class and
    text) or a document card. *)
Inductive DocNode : Type :=
| Placeholder (class text : string)
| Card (c : DocCard).

(** The two closures assigned to [loginButton.onclick]. *)
Inductive LoginHandler : Type :=
| plug_login
| identity_login.

(** An element carrying the class [d-none] is hidden. *)
Record Page : Type := mkPage {
  authSection_hidden : bool;
  appContent_hidden : bool;
  documentOutput_hidden : bool;
  responseArea : string;
  documentsList : list DocNode;
  userNameDisplay : string;
  userStatsDisplay : string;
  lastActiveDisplay : string;
  loginButton_onclick : option LoginHandler
}.

(** The module-level [let] bindings. *)
Record Session : Type := mkSession {
  actor : option Service;
  internetIdentityActor : option Service;
  currentDocument : option string;
  currentPrincipal : option string
}.

Record Alert : Type := mkAlert {
  alert_message : string;
  alert_type : string
}.

Record World : Type := mkWorld {
  session : Session;
  form : Form;
  page : Page;
  buttons : Buttons;
  alerts : list Alert;                 (* notifications shown so far *)
  calls : list call;                   (* requests issued so far *)
  console : list (string * error);     (* console.error *)
  downloads : list (string * string)   (* files offered: name, text *)
}.

(** *** Field updates *)

Definition on_session (f : Session -> Session) (w : World) : World :=
  mkWorld (f (session w)) (form w) (page w) (buttons w)
          (alerts w) (calls w) (console w) (downloads w).
Definition on_form (f : Form -> Form) (w : World) : World :=
  mkWorld (session w) (f (form w)) (page w) (buttons w)
          (alerts w) (calls w) (console w) (downloads w).
Definition on_page (f : Page -> Page) (w : World) : World :=
  mkWorld (session w) (form w) (f (page w)) (buttons w)
          (alerts w) (calls w) (console w) (downloads w).
Definition on_buttons (f : Buttons -> Buttons) (w : World) : World :=
  mkWorld (session w) (form w) (page w) (f (buttons w))
          (alerts w) (calls w) (console w) (downloads w).
Definition add_alert (a : Alert) (w : World) : World :=
  mkWorld (session w) (form w) (page w) (buttons w)
          (alerts w ++ [a]) (calls w) (console w) (downloads w).
Definition add_call (c : call) (w : World) : World :=
  mkWorld (session w) (form w) (page w) (buttons w)
          (alerts w) (calls w ++ [c]) (console w) (downloads w).
Definition add_console (l : string) (e : error) (w : World) : World :=
  mkWorld (session w) (form w) (page w) (buttons w)
          (alerts w) (calls w) (console w ++ [(l, e)]) (downloads w).
Definition add_download (f t : string) (w : World) : World :=
  mkWorld (session w) (form w) (page w) (buttons w)
          (alerts w) (calls w) (console w) (downloads w ++ [(f, t)]).

Definition set_actor (v : option Service) (s : Session) : Session :=
  mkSession v (internetIdentityActor s) (currentDocument s) (currentPrincipal s).
Definition set_internetIdentityActor (v : option Service) (s : Session) : Session :=
  mkSession (actor s) v (currentDocument s) (currentPrincipal s).
Definition set_currentDocument (v : option string) (s : Session) : Session :=
  mkSession (actor s) (internetIdentityActor s) v (currentPrincipal s).
Definition set_currentPrincipal (v : option string) (s : Session) : Session :=
  mkSession (actor s) (internetIdentityActor s) (currentDocument s) v.

Definition set_userNameInput (v : string) (f : Form) : Form :=
  mkForm (advicePrompt f) (adviceContext f) (confidentialCheck f) (docType f)
         (docPrompt f) (docContext f) (docConfidentialCheck f) v.

Definition set_authSection_hidden (v : bool) (p : Page) : Page :=
  mkPage v (appContent_hidden p) (documentOutput_hidden p) (responseArea p)
         (documentsList p) (userNameDisplay p) (userStatsDisplay p)
         (lastActiveDisplay p) (loginButton_onclick p).
Definition set_appContent_hidden (v : bool) (p : Page) : Page :=
  mkPage (authSection_hidden p) v (documentOutput_hidden p) (responseArea p)
         (documentsList p) (userNameDisplay p) (userStatsDisplay p)
         (lastActiveDisplay p) (loginButton_onclick p).
Definition set_documentOutput_hidden (v : bool) (p : Page) : Page :=
  mkPage (authSection_hidden p) (appContent_hidden p) v (responseArea p)
         (documentsList p) (userNameDisplay p) (userStatsDisplay p)
         (lastActiveDisplay p) (loginButton_onclick p).
Definition set_responseArea (v : string) (p : Page) : Page :=
  mkPage (authSection_hidden p) (appContent_hidden p) (documentOutput_hidden p) v
         (documentsList p) (userNameDisplay p) (userStatsDisplay p)
         (lastActiveDisplay p) (loginButton_onclick p).
Definition set_documentsList (v : list DocNode) (p : Page) : Page :=
  mkPage (authSection_hidden p) (appContent_hidden p) (documentOutput_hidden p)
         (responseArea p) v (userNameDisplay p) (userStatsDisplay p)
         (lastActiveDisplay p) (loginButton_onclick p).
Definition set_userNameDisplay (v : string) (p : Page) : Page :=
  mkPage (authSection_hidden p) (appContent_hidden p) (documentOutput_hidden p)
         (responseArea p) (documentsList p) v (userStatsDisplay p)
         (lastActiveDisplay p) (loginButton_onclick p).
Definition set_userStatsDisplay (v : string) (p : Page) : Page :=
  mkPage (authSection_hidden p) (appContent_hidden p) (documentOutput_hidden p)
         (responseArea p) (documentsList p) (userNameDisplay p) v
         (lastActiveDisplay p) (loginButton_onclick p).
Definition set_lastActiveDisplay (v : string) (p : Page) : Page :=
  mkPage (authSection_hidden p) (appContent_hidden p) (documentOutput_hidden p)
         (responseArea p) (documentsList p) (userNameDisplay p)
         (userStatsDisplay p) v (loginButton_onclick p).
Definition set_loginButton_onclick (v : option LoginHandler) (p : Page) : Page :=
  mkPage (authSection_hidden p) (appContent_hidden p) (documentOutput_hidden p)
         (responseArea p) (documentsList p) (userNameDisplay p)
         (userStatsDisplay p) (lastActiveDisplay p) v.

Definition on_getAdviceBtn (f : Button -> Button) (b : Buttons) : Buttons :=
  mkButtons (f (getAdviceBtn b)) (generateDocBtn b) (saveDocBtn b) (updateNameBtn b).
Definition on_generateDocBtn (f : Button -> Button) (b : Buttons) : Buttons :=
  mkButtons (getAdviceBtn b) (f (generateDocBtn b)) (saveDocBtn b) (updateNameBtn b).
Definition on_saveDocBtn (f : Button -> Button) (b : Buttons) : Buttons :=
  mkButtons (getAdviceBtn b) (generateDocBtn b) (f (saveDocBtn b)) (updateNameBtn b).
Definition on_updateNameBtn (f : Button -> Button) (b : Buttons) : Buttons :=
  mkButtons (getAdviceBtn b) (generateDocBtn b) (saveDocBtn b) (f (updateNameBtn b)).

(** *** Handlers as state transformers that may throw *)

Definition M (A : Type) : Type := World -> result A * World.

Definition ret {A} (a : A) : M A := fun w => (Ok a, w).

Definition throw {A} (e : error) : M A := fun w => (Throw e, w).

Definition bind {A B} (m : M A) (k : A -> M B) : M B :=
  fun w =>
    match m w with
    | (Ok a, w') => k a w'
    | (Throw e, w') => (Throw e, w')
    end.

Declare Scope js_scope.
Delimit Scope js_scope with js.
Notation "x <- m ;; k" := (bind m (fun x => k))
  (at level 100, m at next level, right associativity) : js_scope.
Notation "m ;; k" := (bind m (fun _ => k))
  (at level 100, right associativity) : js_scope.
Open Scope js_scope.

(** [try { body } catch (error) { handler }] *)
Definition try_catch {A} (body : M A) (handler : error -> M A) : M A :=
  fun w =>
    match body w with
    | (Throw e, w') => handler e w'
    | (Ok a, w') => (Ok a, w')
    end.

(** [try { body } finally { fin }]: [fin] runs on both completions and its
    own exception, if any, wins. *)
Definition finally {A} (body : M A) (fin : M unit) : M A :=
  fun w =>
    let (r, w') := body w in
    match fin w' with
    | (Ok _, w'') => (r, w'')
    | (Throw e, w'') => (Throw e, w'')
    end.

Definition get {A} (f : World -> A) : M A := fun w => (Ok (f w), w).

Definition lift (f : World -> World) : M unit := fun w => (Ok tt, f w).

(** An expression that may throw. *)
Definition eval {A} (r : result A) : M A := fun w => (r, w).

(** [await p] for a promise that settles as [p]: the handler resumes with
    the value or with the rejection thrown at the [await]. *)
Definition await {A} (p : result A) : M A := fun w => (p, w).

(** Call of an async function whose promise is dropped.  The callee's
    request is issued at once; what it does with the reply only writes its
    own views, which no statement between the call and the end of the
    caller reads or writes, so it is run in place (the console lines of two
    fetches in flight are listed in the order of their calls).  A rejection
    stays in the dropped promise. *)
Definition spawn (m : M unit) : M unit := fun w => (Ok tt, snd (m w)).

(** [await actor.method(..)]: reading a method of the unset [actor] is a
    TypeError and nothing is sent; otherwise the request goes out and the
    promise settles as the canister decides. *)
Definition actor_call {A} (c : call) (reply : result A) : M A :=
  fun w =>
    match actor (session w) with
    | Some _ => (reply, add_call c w)
    | None =>
        (Throw (TypeError "Cannot read properties of undefined"), w)
    end.

Fixpoint forEach {A} (l : list A) (f : A -> M unit) : M unit :=
  match l with
  | [] => ret tt
  | x :: r => f x ;; forEach r f
  end.

(** The world after a handler, and what it sent. *)
Definition run {A} (m : M A) (w : World) : World := snd (m w).

Definition emitted {A} (m : M A) (w : World) : list call :=
  skipn (List.length (calls w)) (calls (run m w)).

(** ** The script *)

(** [`${v}`] for the value of an array slot. *)
Definition prim_toString (v : prim) : string :=
  match v with
  | PUndefined => "undefined"
  | PNull => "null"
  | PBool b => if b then "true" else "false"
  | PNumber NaN => "NaN"
  | PNumber (Finite z) => BigInt_toString z
  | PBigInt z => BigInt_toString z
  | PString s => s
  end.

Definition console_error (label : string) (e : error) : M unit :=
  lift (add_console label e).

(** Lines 213-220.  Scrolling the response area into view changes nothing
    that is kept here. *)
Definition displayResponse (text : string) : M unit :=
  lift (on_page (set_responseArea
    (replace_all
      (replace_all
        (replace_all
          (replace_all text (String "010" EmptyString) "<br>")
          "IMPORTANT:" "<strong>IMPORTANT:</strong>")
        "NOTE:" "<strong>NOTE:</strong>")
      "DISCLAIMER:" "<strong>DISCLAIMER:</strong>"))).

(** Lines 302-310. *)
Definition formatDate (env : Env) (date : Date) : string :=
  toLocaleString env date.

(** The double quote, for markup literals. *)
Definition dq : string := String (ascii_of_nat 34) EmptyString.

Definition spinner : string :=
  "<i class=" ++ dq ++ "fas fa-spinner fa-spin me-2" ++ dq ++ "></i>".

(** Lines 312-321.  [originalText] is read from the button on every call. *)
Definition toggleButton (button : Button) (isLoading : bool) : Button :=
  let originalText := innerHTML button in
  if isLoading then
    mkButton true (spinner ++ trim (textContent button))
  else
    mkButton false originalText.

(** Lines 323-340.  The alert is appended to the body; its removal after
    five seconds is a matter of wall-clock time and is left out. *)
Definition showAlert (message type : string) : M unit :=
  lift (add_alert (mkAlert message type)).

(** [profile.name.unwrap_or(dflt)] on the array that carries the optional
    name.  The call goes through only if the property read yields a
    function, in which case the default-on-absence reading of the name is
    what it stands for. *)
Definition unwrap_or (name : list string) (dflt : string) : result string :=
  if array_method "unwrap_or" then Ok (hd dflt name)
  else Throw (TypeError "profile.name.unwrap_or is not a function").

(** Lines 222-238. *)
Definition loadUserProfile (env : Env) : M unit :=
  try_catch
    (profile <- actor_call get_user_profile (reply_get_user_profile env) ;;
     shown <- eval (unwrap_or (name profile) "User") ;;
     lift (on_page (set_userNameDisplay shown)) ;;
     lift (on_page (set_userStatsDisplay
             (BigInt_toString (document_count profile) ++ " documents generated"))) ;;
     ms <- eval (div_BigInt (PBigInt (last_active profile)) 1000000) ;;
     let lastActiveDate := new_Date (Number_of_BigInt ms) in
     lift (on_page (set_lastActiveDisplay
             ("Last active: " ++ formatDate env lastActiveDate))) ;;
     if (0 <? List.length (name profile))%nat then
       lift (on_form (set_userNameInput (prim_toString (index (name profile) 0))))
     else ret tt)
    (fun error => console_error "Error loading user profile:" error).

(** Line 256. *)
Definition docPreview (content : string) : string :=
  if (100 <? String.length content)%nat
  then substring content 0 100 ++ "..."
  else content.

(** Lines 255-275: the callback of [docs.forEach]. *)
Definition renderDocument (env : Env) (doc : string * string) : M unit :=
  let '(docId, content) := doc in
  let preview := docPreview content in
  ms <- eval (div_BigInt (index (split docId "_") 2) 1000000) ;;
  let docDate := new_Date (Number_of_BigInt ms) in
  let docElement :=
    mkDocCard (prim_toString (index (split docId "_") 1))
              (formatDate env docDate) preview docId 0 in
  lift (on_page (fun p => set_documentsList (documentsList p ++ [Card docElement]) p)).

(** Lines 279-290: click on a View button.  [docId] is what
    [e.target.getAttribute('data-doc-id')] returns for the element that was
    hit: the id of the card when the click lands on the button itself,
    [null] (here [None]) when it lands on the icon inside the button.  The
    value is passed to the proxy as it is. *)
Definition viewDocBtn_click (env : Env) (docId : option string) : M unit :=
  try_catch
    (docContent <- actor_call (get_document docId) (reply_get_document env docId) ;;
     displayResponse docContent ;;
     lift (on_session (set_currentDocument (Some docContent))) ;;
     lift (on_page (set_documentOutput_hidden false)))
    (fun error =>
       console_error "Error fetching document:" error ;;
       displayResponse "Error loading document").

Definition add_listener (n : DocNode) : DocNode :=
  match n with
  | Card c =>
      Card (mkDocCard (card_title c) (card_date c) (card_preview c)
                      (card_docId c) (S (card_listeners c)))
  | Placeholder c t => Placeholder c t
  end.

(** Lines 240-300. *)
Definition loadUserDocuments (env : Env) : M unit :=
  try_catch
    (docs <- actor_call get_user_documents (reply_get_user_documents env) ;;
     if (List.length docs =? 0)%nat then
       lift (on_page (set_documentsList
         [Placeholder "text-muted" "No documents found. Generate one to get started!"]))
     else
       lift (on_page (set_documentsList [])) ;;
       forEach docs (renderDocument env) ;;
       lift (on_page (fun p => set_documentsList (map add_listener (documentsList p)) p)))
    (fun error =>
       console_error "Error loading documents:" error ;;
       lift (on_page (set_documentsList
         [Placeholder "text-danger" "Error loading documents"]))).

Definition host (env : Env) : string :=
  match DFX_NETWORK env with
  | Some n => if n =? "ic" then "https://ic0.app" else "http://127.0.0.1:4943"
  | None => "http://127.0.0.1:4943"
  end.

(** [process.env.DFX_NETWORK !== 'ic'] *)
Definition not_ic (env : Env) : bool :=
  match DFX_NETWORK env with
  | Some n => negb (n =? "ic")
  | None => true
  end.

(** Lines 55-83.  Reading the principal and the identity and building the
    agent object do not fail. *)
Definition handleAuthenticated (env : Env) : M unit :=
  lift (on_session (set_currentPrincipal (Some (principal env)))) ;;
  lift (on_page (set_authSection_hidden true)) ;;
  lift (on_page (set_appContent_hidden false)) ;;
  (if not_ic env then
     lift (add_call (fetchRootKey (host env))) ;;
     await (agent_fetchRootKey env)
   else ret tt) ;;
  eval (createActor env wakili_backend) ;;
  lift (on_session (set_actor (Some wakili_backend))) ;;
  eval (createActor env internet_identity) ;;
  lift (on_session (set_internetIdentityActor (Some internet_identity))) ;;
  spawn (loadUserProfile env) ;;
  spawn (loadUserDocuments env).

(** Lines 42-47 and 355-362: the closure behind the login button.  Nothing
    around it catches; an exception ends up as the result. *)
Definition loginButton_click (env : Env) : M unit :=
  h <- get (fun w => loginButton_onclick (page w)) ;;
  match h with
  | None => ret tt
  | Some h =>
      lift (add_call (login match h with
                            | plug_login => None
                            | identity_login => Some "https://identity.ic0.app"
                            end)) ;;
      await (authClient_login env) ;;
      authenticated <- await (isAuthenticated_after_login env) ;;
      if authenticated then handleAuthenticated env else ret tt
  end.

(** Lines 31-48: the [try] block of [initII]. *)
Definition initII_try (env : Env) : M unit :=
  await (plug_createAgent env) ;;
  authenticated <- await (isAuthenticated env) ;;
  if authenticated then handleAuthenticated env
  else lift (on_page (set_loginButton_onclick (Some plug_login))).

(** Lines 29-53. *)
Definition initII (env : Env) : M unit :=
  try_catch (initII_try env)
    (fun error =>
       console_error "Error initializing Internet Identity:" error ;;
       showAlert "Error initializing authentication. Please try again." "danger").

(** Lines 345-364: the [try] block of [window.onload]. *)
Definition onload_try (env : Env) : M unit :=
  if plug env then initII env
  else
    await (AuthClient_create env) ;;
    authenticated <- await (isAuthenticated env) ;;
    if authenticated then handleAuthenticated env
    else lift (on_page (set_loginButton_onclick (Some identity_login))).

(** Lines 343-369. *)
Definition window_onload (env : Env) : M unit :=
  try_catch (onload_try env)
    (fun error =>
       console_error "Auth error:" error ;;
       showAlert "Authentication failed. Try refreshing or install Plug Wallet." "danger").

(** Lines 86-122. *)
Definition getAdviceBtn_click (env : Env) : M unit :=
  prompt <- get (fun w => advicePrompt (form w)) ;;
  context <- get (fun w => adviceContext (form w)) ;;
  isConfidential <- get (fun w => confidentialCheck (form w)) ;;
  if negb (truthy prompt) then
    showAlert "Please enter your legal question" "warning"
  else
    finally
      (try_catch
         (lift (on_buttons (on_getAdviceBtn (fun b => toggleButton b true))) ;;
          let request := mkRequest prompt None (or_null context) isConfidential in
          reply <- actor_call (generate_legal_advice request)
                              (reply_generate_legal_advice env request) ;;
          if status reply =? "success" then
            displayResponse (response reply) ;;
            lift (on_session (set_currentDocument None)) ;;
            lift (on_page (set_documentOutput_hidden true))
          else
            throw (Error "[object Object]"))
         (fun error =>
            console_error "Error getting legal advice:" error ;;
            displayResponse
              ("Error: " ++ or_else (message error) "Failed to get legal advice")))
      (lift (on_buttons (on_getAdviceBtn (fun b => toggleButton b false))) ;;
       spawn (loadUserProfile env)).

(** [response.status === 'success' && response.document] *)
Definition generated_document (reply : Response) : option string :=
  if status reply =? "success" then
    match document reply with
    | Some d => if truthy d then Some d else None
    | None => None
    end
  else None.

(** Lines 124-161. *)
Definition generateDocBtn_click (env : Env) : M unit :=
  type <- get (fun w => docType (form w)) ;;
  prompt <- get (fun w => docPrompt (form w)) ;;
  context <- get (fun w => docContext (form w)) ;;
  isConfidential <- get (fun w => docConfidentialCheck (form w)) ;;
  if negb (truthy prompt) then
    showAlert "Please describe the document you need" "warning"
  else
    finally
      (try_catch
         (lift (on_buttons (on_generateDocBtn (fun b => toggleButton b true))) ;;
          let request := mkRequest prompt (Some type) (or_null context) isConfidential in
          reply <- actor_call (generate_legal_document request)
                              (reply_generate_legal_document env request) ;;
          match generated_document reply with
          | Some d =>
              displayResponse d ;;
              lift (on_session (set_currentDocument (Some d))) ;;
              lift (on_page (set_documentOutput_hidden false))
          | None => throw (Error "Document generation failed")
          end)
         (fun error =>
            console_error "Error generating document:" error ;;
            displayResponse
              ("Error: " ++ or_else (message error) "Failed to generate document")))
      (lift (on_buttons (on_generateDocBtn (fun b => toggleButton b false))) ;;
       spawn (loadUserProfile env)).

(** [!currentDocument]: [null] and the empty text are falsy. *)
Definition no_document (d : option string) : bool :=
  match d with
  | Some t => negb (truthy t)
  | None => true
  end.

(** Lines 163-175.  The file is offered through a temporary link. *)
Definition downloadDocBtn_click (env : Env) : M unit :=
  current <- get (fun w => currentDocument (session w)) ;;
  match current with
  | Some text =>
      if truthy text then
        lift (add_download ("legal_document_" ++ today env ++ ".txt") text)
      else ret tt
  | None => ret tt
  end.

(** Lines 177-190. *)
Definition saveDocBtn_click (env : Env) : M unit :=
  current <- get (fun w => currentDocument (session w)) ;;
  if no_document current then ret tt
  else
    finally
      (try_catch
         (lift (on_buttons (on_saveDocBtn (fun b => toggleButton b true))) ;;
          spawn (loadUserDocuments env) ;;
          showAlert "Document saved successfully!" "success")
         (fun error =>
            console_error "Error saving document:" error ;;
            showAlert "Failed to save document" "danger"))
      (lift (on_buttons (on_saveDocBtn (fun b => toggleButton b false)))).

(** Lines 192-210. *)
Definition updateNameBtn_click (env : Env) : M unit :=
  typed <- get (fun w => userNameInput (form w)) ;;
  let name := trim typed in
  if negb (truthy name) then
    showAlert "Please enter a name" "warning"
  else
    finally
      (try_catch
         (lift (on_buttons (on_updateNameBtn (fun b => toggleButton b true))) ;;
          actor_call (update_user_name name) (reply_update_user_name env name) ;;
          spawn (loadUserProfile env) ;;
          showAlert "Name updated successfully!" "success")
         (fun error =>
            console_error "Error updating name:" error ;;
            showAlert "Failed to update name" "danger"))
      (lift (on_buttons (on_updateNameBtn (fun b => toggleButton b false)))).
End Wakili.

(** ** Vocabulary of the statements *)

Module Statements.
Import JS Wakili.

(** The two generation commands, their prompt field, their handler and
    the request they send. *)
Inductive command : Type :=
| get_advice
| generate_document.

Definition command_click (c : command) : Env -> M unit :=
  match c with
  | get_advice => getAdviceBtn_click
  | generate_document => generateDocBtn_click
  end.

Definition command_prompt (c : command) (w : World) : string :=
  match c with
  | get_advice => advicePrompt (form w)
  | generate_document => docPrompt (form w)
  end.

Definition is_get_user_profile (c : call) : bool :=
  match c with
  | get_user_profile => true
  | _ => false
  end.

Definition is_fetchRootKey (c : call) : bool :=
  match c with
  | fetchRootKey _ => true
  | _ => false
  end.

(** Provider detection and the authenticated-state check: the awaits of
    the bootstrap that come before [handleAuthenticated]. *)
Definition detect (env : Env) : result bool :=
  match (if plug env then plug_createAgent env else AuthClient_create env) with
  | Ok _ => isAuthenticated env
  | Throw e => Throw e
  end.

(** The [try] block that is live during the bootstrap: that of [initII]
    when the wallet is there, that of [window.onload] otherwise. *)
Definition bootstrap_try (env : Env) : M unit :=
  if plug env then initII_try env else onload_try env.

(** What a fetch of the document list leaves behind, by reply. *)
Definition documents_outcome (env : Env) (w : World) : World :=
  match actor (session w) with
  | Some _ =>
      match reply_get_user_documents env with
      | Ok [] =>
          on_page (set_documentsList
            [Placeholder "text-muted" "No documents found. Generate one to get started!"])
            (add_call get_user_documents w)
      | Ok (_ :: _) =>
          on_page (set_documentsList [Placeholder "text-danger" "Error loading documents"])
            (add_console "Error loading documents:"
               (TypeError "Cannot mix BigInt and other types, use explicit conversions")
               (on_page (set_documentsList []) (add_call get_user_documents w)))
      | Throw e =>
          on_page (set_documentsList [Placeholder "text-danger" "Error loading documents"])
            (add_console "Error loading documents:" e (add_call get_user_documents w))
      end
  | None =>
      on_page (set_documentsList [Placeholder "text-danger" "Error loading documents"])
        (add_console "Error loading documents:"
           (TypeError "Cannot read properties of undefined") w)
  end.

(** Requests of [handleAuthenticated] once the network check is behind:
    the two fetches go out only if neither the root key nor the proxies
    failed. *)
Definition handleAuthenticated_tail (env : Env) : list call :=
  match (if not_ic env then agent_fetchRootKey env else Ok tt),
        createActor env wakili_backend, createActor env internet_identity with
  | Ok _, Ok _, Ok _ => [get_user_profile; get_user_documents]
  | _, _, _ => []
  end.

(** The login view is showing and the application view is not. *)
Definition pre_authentication (w : World) : Prop :=
  authSection_hidden (page w) = false /\ appContent_hidden (page w) = true.

(** *** Sample inputs *)

Definition blank_page : Page :=
  mkPage false true true EmptyString [] EmptyString EmptyString EmptyString None.

Definition idle_buttons : Buttons :=
  mkButtons (mkButton false "Get Advice") (mkButton false "Generate Document")
            (mkButton false "Save") (mkButton false "Update").

(** Before authentication: nothing bound, login view showing. *)
Definition fresh_world : World :=
  mkWorld (mkSession None None None None)
          (mkForm EmptyString EmptyString false "contract" EmptyString EmptyString
                  false EmptyString)
          blank_page idle_buttons [] [] [] [].

(** After a successful bootstrap, with a question typed in. *)
Definition signed_in_world : World :=
  mkWorld (mkSession (Some wakili_backend) (Some internet_identity) None (Some "2vxsx-fae"))
          (mkForm "Can my landlord raise the rent?" EmptyString true
                  "contract" "A lease for a flat" "two tenants" false "Amina")
          (mkPage true false true EmptyString [] EmptyString EmptyString EmptyString None)
          idle_buttons [] [] [] [].

Definition sample_profile : UserProfile :=
  mkUserProfile [] 3 1700000000000000000.

Definition sample_docs : list (string * string) :=
  [("advice_ContractReview_1700000000000000000", "Review of the supply contract")].

(** A local network on which every call succeeds. *)
Definition local_env : Env :=
  mkEnv (Some "local") false (Ok tt) (Ok tt) (Ok true) "2vxsx-fae" (Ok tt) (Ok true)
        (Ok tt) (fun _ => Ok tt)
        (fun _ => Ok (mkResponse "success" "NOTE: ask a lawyer" None))
        (fun _ => Ok (mkResponse "success" "drafted" (Some "LEASE AGREEMENT")))
        (Ok sample_profile) (Ok sample_docs)
        (fun _ => Ok "Review of the supply contract") (fun _ => Ok tt)
        (fun _ => "Nov 14, 2023, 10:13 PM") "2026-01-01".

(** The same network with the status endpoint down. *)
Definition root_key_down_env : Env :=
  mkEnv (Some "local") false (Ok tt) (Ok tt) (Ok true) "2vxsx-fae" (Ok tt) (Ok true)
        (Throw (Error "Failed to fetch")) (fun _ => Ok tt)
        (fun _ => Ok (mkResponse "success" "NOTE: ask a lawyer" None))
        (fun _ => Ok (mkResponse "success" "drafted" (Some "LEASE AGREEMENT")))
        (Ok sample_profile) (Ok sample_docs)
        (fun _ => Ok "Review of the supply contract") (fun _ => Ok tt)
        (fun _ => "Nov 14, 2023, 10:13 PM") "2026-01-01".

(** No wallet, and the identity client cannot be created. *)
Definition no_provider_env : Env :=
  mkEnv (Some "ic") false (Ok tt) (Throw (Error "IndexedDB unavailable")) (Ok false)
        "2vxsx-fae" (Ok tt) (Ok true) (Ok tt) (fun _ => Ok tt)
        (fun _ => Throw (Error "unreachable")) (fun _ => Throw (Error "unreachable"))
        (Throw (Error "unreachable")) (Throw (Error "unreachable"))
        (fun _ => Throw (Error "unreachable")) (fun _ => Throw (Error "unreachable"))
        (fun _ => "Nov 14, 2023, 10:13 PM") "2026-01-01".

(** The login view once the bootstrap has found nobody signed in. *)
Definition login_view_world : World :=
  on_page (set_loginButton_onclick (Some identity_login)) fresh_world.

(** The user closes the identity window: the login is rejected. *)
Definition login_rejected_env : Env :=
  mkEnv (Some "ic") false (Ok tt) (Ok tt) (Ok false) "2vxsx-fae"
        (Throw (Error "UserInterrupt")) (Ok false) (Ok tt) (fun _ => Ok tt)
        (fun _ => Throw (Error "unreachable")) (fun _ => Throw (Error "unreachable"))
        (Throw (Error "unreachable")) (Throw (Error "unreachable"))
        (fun _ => Throw (Error "unreachable")) (fun _ => Throw (Error "unreachable"))
        (fun _ => "Nov 14, 2023, 10:13 PM") "2026-01-01".

(** Contents of a given length. *)
Definition content_of_length (n : nat) : string :=
  string_of_list_ascii (repeat "a"%char n).

(** *** Notions for the remaining handlers *)

(** Whether a character occurs in a string. *)
Fixpoint occurs (c : ascii) (s : string) : bool :=
  match s with
  | EmptyString => false
  | String d r => (Ascii.eqb d c || occurs c r)%bool
  end.

(** What [displayResponse] writes into the response area. *)
Definition formatted (text : string) : string :=
  replace_all
    (replace_all
      (replace_all
        (replace_all text (String "010" EmptyString) "<br>")
        "IMPORTANT:" "<strong>IMPORTANT:</strong>")
      "NOTE:" "<strong>NOTE:</strong>")
    "DISCLAIMER:" "<strong>DISCLAIMER:</strong>".

(** The in-progress label [toggleButton] gives a button. *)
Definition busy_label (b : Button) : string :=
  spinner ++ trim (textContent b).

(** The requests the two generation commands build from the form. *)
Definition advice_request (w : World) : Request :=
  mkRequest (advicePrompt (form w)) None (or_null (adviceContext (form w)))
            (confidentialCheck (form w)).

Definition document_request (w : World) : Request :=
  mkRequest (docPrompt (form w)) (Some (docType (form w)))
            (or_null (docContext (form w))) (docConfidentialCheck (form w)).

Definition command_call (c : command) (w : World) : call :=
  match c with
  | get_advice => generate_legal_advice (advice_request w)
  | generate_document => generate_legal_document (document_request w)
  end.

Definition command_button (c : command) (b : Buttons) : Button :=
  match c with
  | get_advice => getAdviceBtn b
  | generate_document => generateDocBtn b
  end.

(** The prompt carried by a generation request, if the call is one. *)
Definition sent_prompt (c : call) : option string :=
  match c with
  | generate_legal_advice r | generate_legal_document r => Some (prompt r)
  | _ => None
  end.

(** The argument of [login] each closure passes. *)
Definition login_argument (h : LoginHandler) : option string :=
  match h with
  | plug_login => None
  | identity_login => Some "https://identity.ic0.app"
  end.

(** A world in which a document has been generated and is current. *)
Definition document_world : World :=
  on_session (set_currentDocument (Some "LEASE AGREEMENT")) signed_in_world.

(** The backend rejects every call. *)
Definition backend_down_env : Env :=
  mkEnv (Some "ic") false (Ok tt) (Ok tt) (Ok true) "2vxsx-fae" (Ok tt) (Ok true)
        (Ok tt) (fun _ => Ok tt)
        (fun _ => Throw (Error "Canister rejected the call"))
        (fun _ => Throw (Error "Canister rejected the call"))
        (Throw (Error "Canister rejected the call"))
        (Throw (Error "Canister rejected the call"))
        (fun _ => Throw (Error "Canister rejected the call"))
        (fun _ => Throw (Error "Canister rejected the call"))
        (fun _ => "Nov 14, 2023, 10:13 PM") "2026-01-01".

(** Nobody is signed in yet; the wallet extension is present. *)
Definition signed_out_env : Env :=
  mkEnv (Some "ic") true (Ok tt) (Ok tt) (Ok false) "2vxsx-fae" (Ok tt) (Ok true)
        (Ok tt) (fun _ => Ok tt)
        (fun _ => Ok (mkResponse "success" "NOTE: ask a lawyer" None))
        (fun _ => Ok (mkResponse "success" "drafted" (Some "LEASE AGREEMENT")))
        (Ok sample_profile) (Ok sample_docs)
        (fun _ => Ok "Review of the supply contract") (fun _ => Ok tt)
        (fun _ => "Nov 14, 2023, 10:13 PM") "2026-01-01".

(** *** Labels the button model is exact for *)

(** Printable ASCII other than [<], [>] and [&]. *)
Definition plain_char (c : ascii) : bool :=
  let n := nat_of_ascii c in
  (Nat.leb 32 n && Nat.leb n 126
   && negb (Ascii.eqb c "<") && negb (Ascii.eqb c ">")
   && negb (Ascii.eqb c "&"))%bool.

Fixpoint plain (s : string) : bool :=
  match s with
  | EmptyString => true
  | String c r => (plain_char c && plain r)%bool
  end.

(** Markup of a trigger as the page ships it or as [toggleButton] leaves
    it: plain text, possibly preceded by the spinner icon.  For such
    markup the text of the button is the markup without its tags, and
    markup written to the button reads back unchanged. *)
Definition simple_label (m : string) : Prop :=
  exists t, plain t = true /\ (m = t \/ m = spinner ++ t).

(** The local network answering the document-list fetch with [docs]. *)
Definition documents_env (docs : list (string * string)) : Env :=
  mkEnv (Some "local") false (Ok tt) (Ok tt) (Ok true) "2vxsx-fae" (Ok tt) (Ok true)
        (Ok tt) (fun _ => Ok tt)
        (fun _ => Ok (mkResponse "success" "NOTE: ask a lawyer" None))
        (fun _ => Ok (mkResponse "success" "drafted" (Some "LEASE AGREEMENT")))
        (Ok sample_profile) (Ok docs)
        (fun _ => Ok "Review of the supply contract") (fun _ => Ok tt)
        (fun _ => "Nov 14, 2023, 10:13 PM") "2026-01-01".

End Statements.

Import JS Wakili Statements.

(** ** Auxiliary facts *)

Lemma skipn_emitted (A : Type) (l evs : list A) :
  skipn (List.length l) (l ++ evs) = evs.
Proof. induction l as [|x l IH]; simpl; auto. Qed.

Lemma truthy_nonempty (s : string) : s <> EmptyString -> truthy s = true.
Proof. destruct s; simpl; congruence. Qed.

Lemma not_ic_spec (env : Env) :
  not_ic env = true <-> DFX_NETWORK env <> Some "ic".
Proof.
  unfold not_ic. destruct (DFX_NETWORK env) as [n|].
  - destruct (String.eqb_spec n "ic") as [->|Hn]; simpl; split; try congruence.
  - split; congruence.
Qed.

(** *** The button toggle *)

(** Switching the busy state off writes back the markup it has just read. *)
Lemma toggleButton_off (b : Button) :
  toggleButton b false = mkButton false (innerHTML b).
Proof. reflexivity. Qed.

Lemma toggleButton_on (b : Button) :
  toggleButton b true = mkButton true (spinner ++ trim (textContent b)).
Proof. reflexivity. Qed.

(** A busy period leaves the button enabled and carrying the busy label. *)
Lemma toggleButton_on_off (b : Button) :
  toggleButton (toggleButton b true) false
  = mkButton false (spinner ++ trim (textContent b)).
Proof. reflexivity. Qed.

(** *** The two renderers *)

Lemma unwrap_or_throws (n : list string) (d : string) :
  unwrap_or n d = Throw (TypeError "profile.name.unwrap_or is not a function").
Proof. reflexivity. Qed.

(** Whatever the canister answers, the profile fetch ends in its [catch]:
    one line on the console, nothing written to the page. *)
Lemma loadUserProfile_run (env : Env) (w : World) :
  loadUserProfile env w =
  (Ok tt,
   match actor (session w) with
   | Some _ =>
       add_console "Error loading user profile:"
         match reply_get_user_profile env with
         | Ok _ => TypeError "profile.name.unwrap_or is not a function"
         | Throw e => e
         end
         (add_call get_user_profile w)
   | None =>
       add_console "Error loading user profile:"
         (TypeError "Cannot read properties of undefined") w
   end).
Proof.
  unfold loadUserProfile, try_catch, bind, actor_call, console_error, lift, eval.
  destruct (actor (session w)); [|reflexivity].
  destruct (reply_get_user_profile env); reflexivity.
Qed.

(** Dividing a slot of a split id by a BigInt is a type mismatch, whatever
    the id. *)
Lemma id_part_div_throws (parts : list string) (i : nat) (d : Z) :
  div_BigInt (index parts i) d
  = Throw (TypeError "Cannot mix BigInt and other types, use explicit conversions").
Proof. unfold index. destruct (nth_error parts i); reflexivity. Qed.

Lemma renderDocument_throws (env : Env) (doc : string * string) (w : World) :
  renderDocument env doc w
  = (Throw (TypeError "Cannot mix BigInt and other types, use explicit conversions"), w).
Proof.
  destruct doc as [docId content].
  unfold renderDocument, bind, eval. rewrite id_part_div_throws. reflexivity.
Qed.

(** The document list shows the cards of no document: an empty reply gives
    the placeholder, every other reply the error line. *)
Lemma loadUserDocuments_run (env : Env) (w : World) :
  loadUserDocuments env w = (Ok tt, documents_outcome env w).
Proof.
  unfold loadUserDocuments, documents_outcome, try_catch, bind, actor_call,
    console_error, lift.
  destruct (actor (session w)); [|reflexivity].
  destruct (reply_get_user_documents env) as [[|d ds]|e]; try reflexivity.
  cbn [List.length Nat.eqb forEach]. unfold bind.
  rewrite renderDocument_throws. reflexivity.
Qed.

(** The fetch of the document list writes the list and the console and
    sends one request; it leaves the rest of the world alone. *)
Ltac documents_frame :=
  intros; unfold documents_outcome;
  match goal with
  | |- context [actor (session ?w)] =>
      destruct (actor (session w)); [|reflexivity]
  end;
  match goal with
  | |- context [reply_get_user_documents ?env] =>
      destruct (reply_get_user_documents env) as [[|? ?]|?]; reflexivity
  end.

Lemma documents_outcome_session (env : Env) (w : World) :
  session (documents_outcome env w) = session w.
Proof. documents_frame. Qed.

Lemma documents_outcome_form (env : Env) (w : World) :
  form (documents_outcome env w) = form w.
Proof. documents_frame. Qed.

Lemma documents_outcome_buttons (env : Env) (w : World) :
  buttons (documents_outcome env w) = buttons w.
Proof. documents_frame. Qed.

Lemma documents_outcome_alerts (env : Env) (w : World) :
  alerts (documents_outcome env w) = alerts w.
Proof. documents_frame. Qed.

Lemma documents_outcome_downloads (env : Env) (w : World) :
  downloads (documents_outcome env w) = downloads w.
Proof. documents_frame. Qed.

Lemma documents_outcome_authSection (env : Env) (w : World) :
  authSection_hidden (page (documents_outcome env w)) = authSection_hidden (page w).
Proof. documents_frame. Qed.

Lemma documents_outcome_appContent (env : Env) (w : World) :
  appContent_hidden (page (documents_outcome env w)) = appContent_hidden (page w).
Proof. documents_frame. Qed.

Lemma documents_outcome_calls (env : Env) (w : World) :
  calls (documents_outcome env w)
  = (calls w ++ match actor (session w) with
                | Some _ => [get_user_documents]
                | None => []
                end)%list.
Proof.
  unfold documents_outcome.
  destruct (actor (session w)); [|symmetry; apply app_nil_r].
  destruct (reply_get_user_documents env) as [[|d ds]|e]; reflexivity.
Qed.

Create Rewrite HintDb wakili_frame.
#[global] Hint Rewrite documents_outcome_session documents_outcome_form
  documents_outcome_buttons documents_outcome_alerts documents_outcome_downloads
  documents_outcome_authSection documents_outcome_appContent
  documents_outcome_calls : wakili_frame.

(** *** Running the handlers *)

Ltac unfold_handlers :=
  unfold emitted, run, command_click, command_prompt,
    getAdviceBtn_click, generateDocBtn_click, saveDocBtn_click,
    updateNameBtn_click, downloadDocBtn_click, no_document,
    finally, try_catch, bind, get, lift, throw, ret, spawn, actor_call,
    displayResponse, showAlert, console_error.

(** Reduce a handler applied to a world, keeping the two fetches folded and
    replacing them by their outcomes. *)
Ltac step_handler :=
  cbn -[loadUserProfile loadUserDocuments documents_outcome replace_all
        toggleButton String.append trim];
  repeat (rewrite ?loadUserProfile_run, ?loadUserDocuments_run;
          cbn -[loadUserProfile loadUserDocuments documents_outcome replace_all
                toggleButton String.append trim]).

(** World after the advice command once the prompt passed validation, for
    the three ways the call can end; only the fields the statements below
    read are spelled out. *)
Lemma getAdviceBtn_click_calls (env : Env) (w : World) :
  actor (session w) <> None ->
  advicePrompt (form w) <> EmptyString ->
  calls (run (getAdviceBtn_click env) w)
  = (calls w ++
     [generate_legal_advice
        (mkRequest (advicePrompt (form w)) None (or_null (adviceContext (form w)))
                   (confidentialCheck (form w)));
      get_user_profile])%list.
Proof.
  intros Hactor Hprompt. unfold_handlers.
  rewrite (truthy_nonempty _ Hprompt). step_handler.
  destruct (actor (session w)) as [svc|] eqn:Ha; [|congruence].
  destruct (reply_generate_legal_advice env _) as [reply|e]; step_handler.
  - destruct (status reply =? "success"); step_handler;
      rewrite Ha; step_handler; rewrite <- app_assoc; reflexivity.
  - rewrite Ha; step_handler; rewrite <- app_assoc; reflexivity.
Qed.

Lemma generateDocBtn_click_calls (env : Env) (w : World) :
  actor (session w) <> None ->
  docPrompt (form w) <> EmptyString ->
  calls (run (generateDocBtn_click env) w)
  = (calls w ++
     [generate_legal_document
        (mkRequest (docPrompt (form w)) (Some (docType (form w)))
                   (or_null (docContext (form w))) (docConfidentialCheck (form w)));
      get_user_profile])%list.
Proof.
  intros Hactor Hprompt. unfold_handlers.
  rewrite (truthy_nonempty _ Hprompt). step_handler.
  destruct (actor (session w)) as [svc|] eqn:Ha; [|congruence].
  destruct (reply_generate_legal_document env _) as [reply|e]; step_handler.
  - destruct (generated_document reply); step_handler;
      rewrite Ha; step_handler; rewrite <- app_assoc; reflexivity.
  - rewrite Ha; step_handler; rewrite <- app_assoc; reflexivity.
Qed.

(** After a command that passed validation the trigger is enabled again and
    carries the busy label, on every way out of the handler. *)
Lemma getAdviceBtn_after (env : Env) (w : World) :
  advicePrompt (form w) <> EmptyString ->
  getAdviceBtn (buttons (run (getAdviceBtn_click env) w))
  = mkButton false (spinner ++ trim (textContent (getAdviceBtn (buttons w)))).
Proof.
  intros Hprompt. unfold_handlers.
  rewrite (truthy_nonempty _ Hprompt). step_handler.
  destruct (actor (session w)) as [svc|] eqn:Ha; step_handler.
  - destruct (reply_generate_legal_advice env _) as [reply|e]; step_handler.
    + destruct (status reply =? "success"); step_handler;
        rewrite Ha; reflexivity.
    + rewrite Ha; reflexivity.
  - rewrite Ha; reflexivity.
Qed.

Lemma generateDocBtn_after (env : Env) (w : World) :
  docPrompt (form w) <> EmptyString ->
  generateDocBtn (buttons (run (generateDocBtn_click env) w))
  = mkButton false (spinner ++ trim (textContent (generateDocBtn (buttons w)))).
Proof.
  intros Hprompt. unfold_handlers.
  rewrite (truthy_nonempty _ Hprompt). step_handler.
  destruct (actor (session w)) as [svc|] eqn:Ha; step_handler.
  - destruct (reply_generate_legal_document env _) as [reply|e]; step_handler.
    + destruct (generated_document reply); step_handler;
        rewrite Ha; reflexivity.
    + rewrite Ha; reflexivity.
  - rewrite Ha; reflexivity.
Qed.

Lemma saveDocBtn_after (env : Env) (w : World) :
  no_document (currentDocument (session w)) = false ->
  saveDocBtn (buttons (run (saveDocBtn_click env) w))
  = mkButton false (spinner ++ trim (textContent (saveDocBtn (buttons w)))).
Proof.
  intros Hdoc. unfold_handlers. unfold no_document in Hdoc.
  step_handler. rewrite Hdoc. step_handler.
  autorewrite with wakili_frame. reflexivity.
Qed.

Lemma updateNameBtn_after (env : Env) (w : World) :
  trim (userNameInput (form w)) <> EmptyString ->
  updateNameBtn (buttons (run (updateNameBtn_click env) w))
  = mkButton false (spinner ++ trim (textContent (updateNameBtn (buttons w)))).
Proof.
  intros Hname. unfold_handlers.
  step_handler. rewrite (truthy_nonempty _ Hname). step_handler.
  destruct (actor (session w)) as [svc|] eqn:Ha; step_handler.
  - destruct (reply_update_user_name env _) as [u|e]; step_handler.
    + rewrite Ha; reflexivity.
    + reflexivity.
  - reflexivity.
Qed.

(** *** The bootstrap *)

(** [handleAuthenticated] switches the views before anything can fail,
    shows no notification, and sends the root-key request exactly when the
    network is not [ic]. *)
Lemma handleAuthenticated_effects (env : Env) (w : World) :
  let w' := run (handleAuthenticated env) w in
  alerts w' = alerts w /\
  authSection_hidden (page w') = true /\
  appContent_hidden (page w') = false /\
  calls w' = (calls w ++ (if not_ic env then [fetchRootKey (host env)] else [])
                      ++ handleAuthenticated_tail env)%list.
Proof.
  unfold handleAuthenticated, handleAuthenticated_tail, run, bind, lift, eval,
    await, ret, spawn.
  destruct (not_ic env);
    [destruct (agent_fetchRootKey env) as [u|e]|];
    (destruct (createActor env wakili_backend) as [u1|e1];
     [destruct (createActor env internet_identity) as [u2|e2]|]);
    step_handler; autorewrite with wakili_frame; step_handler;
    rewrite <- ?app_assoc, ?app_nil_r; repeat split; reflexivity.
Qed.

(** Nothing around the login closure catches: a rejected login ends the
    click with the exception, and all the click has done is to start the
    login. *)
Lemma loginButton_click_login_rejected (env : Env) (w : World) (h : LoginHandler) (e : error) :
  loginButton_onclick (page w) = Some h ->
  authClient_login env = Throw e ->
  loginButton_click env w
  = (Throw e,
     add_call (login match h with
                     | plug_login => None
                     | identity_login => Some "https://identity.ic0.app"
                     end) w).
Proof.
  intros Hh Hl. unfold loginButton_click, bind, get, lift, await.
  rewrite Hh, Hl. reflexivity.
Qed.

(** *** Previews *)

Lemma substring_head (n : nat) (s : string) :
  n <= String.length s ->
  exists tail, s = String.substring 0 n s ++ tail
               /\ String.length (String.substring 0 n s) = n.
Proof.
  revert s. induction n as [|n IH]; intros s Hn.
  - exists s. destruct s; split; reflexivity.
  - destruct s as [|c s]; simpl in Hn; [lia|].
    destruct (IH s) as (tail & Hs & Hl); [lia|].
    exists tail. simpl. split; [f_equal; exact Hs | f_equal; exact Hl].
Qed.

Example docPreview_150 :
  docPreview (content_of_length 150) = content_of_length 100 ++ "...".
Proof. reflexivity. Qed.

Example docPreview_50 :
  docPreview (content_of_length 50) = content_of_length 50.
Proof. reflexivity. Qed.

(** *** The response area *)

Example displayResponse_markers :
  responseArea (page (run (displayResponse
    ("DISCLAIMER: x" ++ String "010" "NOTE: y")) fresh_world))
  = "<strong>DISCLAIMER:</strong> x<br><strong>NOTE:</strong> y".
Proof. reflexivity. Qed.

(** ** The claims *)

(** C1 (defect in the code, evaluated).  The advice trigger starts out as
    an enabled button labelled "Get Advice".  After one advice command
    that succeeds it is enabled again, so the busy flag is given back, but
    its markup is the in-progress label with the spinner: the original
    label is not restored. *)
Theorem C1_trigger_keeps_busy_label :
  getAdviceBtn (buttons signed_in_world) = mkButton false "Get Advice" /\
  getAdviceBtn (buttons (run (getAdviceBtn_click local_env) signed_in_world))
  = mkButton false (spinner ++ "Get Advice") /\
  spinner ++ "Get Advice" <> "Get Advice".
Proof. repeat split; vm_compute; discriminate. Qed.

(** C2 (defect in the code, evaluated).  The id
    "advice_ContractReview_1700000000000000000" splits into three parts
    with "ContractReview" second, but dividing the third part, a string,
    by the BigInt 1000000 throws a TypeError; the renderer ends in its
    catch and the list shows the error line instead of a card with the
    label and the date. *)
Theorem C2_document_date_throws :
  split "advice_ContractReview_1700000000000000000" "_"
  = ["advice"; "ContractReview"; "1700000000000000000"] /\
  div_BigInt (index (split "advice_ContractReview_1700000000000000000" "_") 2) 1000000
  = Throw (TypeError "Cannot mix BigInt and other types, use explicit conversions") /\
  documentsList (page (run (loadUserDocuments local_env) signed_in_world))
  = [Placeholder "text-danger" "Error loading documents"].
Proof. repeat split; vm_compute; reflexivity. Qed.

(** C3 (defect in the code, evaluated).  For a profile without a name,
    three documents and a last-active stamp in nanoseconds, reading
    [unwrap_or] off the name array yields no function: the renderer throws
    on its first statement, logs the TypeError and leaves the name, the
    document count and the last-active date as they were. *)
Theorem C3_profile_rendering_throws :
  reply_get_user_profile local_env = Ok (mkUserProfile [] 3 1700000000000000000) /\
  page (run (loadUserProfile local_env) signed_in_world) = page signed_in_world /\
  userNameDisplay (page (run (loadUserProfile local_env) signed_in_world)) = EmptyString /\
  userStatsDisplay (page (run (loadUserProfile local_env) signed_in_world)) = EmptyString /\
  console (run (loadUserProfile local_env) signed_in_world)
  = [("Error loading user profile:",
      TypeError "profile.name.unwrap_or is not a function")].
Proof. repeat split; vm_compute; reflexivity. Qed.

(** C4 (counterexample).  On a local network whose status endpoint is
    down, an already authenticated user reaches [handleAuthenticated], the
    root-key fetch throws inside the bootstrap, and the login view that
    was showing is hidden once the bootstrap is over: the application did
    not stay in the pre-authentication state.  And when a login started
    from the login view is rejected, the click ends with the exception and
    no notification has been shown. *)
Lemma C4_root_key_failure_leaves_login_view :
  (pre_authentication fresh_world /\
   fst (bootstrap_try root_key_down_env fresh_world) = Throw (Error "Failed to fetch") /\
   ~ pre_authentication (run (window_onload root_key_down_env) fresh_world)) /\
  (fst (loginButton_click login_rejected_env login_view_world)
   = Throw (Error "UserInterrupt") /\
   alerts (run (loginButton_click login_rejected_env) login_view_world) = []).
Proof.
  repeat split; try reflexivity.
  intros [H _]. vm_compute in H. discriminate.
Qed.

(** C4 (as amended).  Whenever the bootstrap's [try] block throws, one
    error notification is shown.  If the exception came from provider
    detection or the authenticated-state check, the session, the page and
    the buttons are as they were and nothing was sent; if it came later,
    from the root-key fetch or the construction of a proxy, the login view
    is hidden and the application view is revealed.  And when the login
    started by the login trigger is rejected, the session, the page (login
    view and the trigger's handler included) and the buttons are as they
    were. *)
Theorem C4_bootstrap_exception_notified (env : Env) (w : World) (e : error) :
  (fst (bootstrap_try env w) = Throw e ->
   (exists text,
       alerts (run (window_onload env) w) = (alerts w ++ [mkAlert text "danger"])%list) /\
   match detect env with
   | Throw _ =>
       session (run (window_onload env) w) = session w /\
       page (run (window_onload env) w) = page w /\
       buttons (run (window_onload env) w) = buttons w /\
       calls (run (window_onload env) w) = calls w
   | Ok _ =>
       authSection_hidden (page (run (window_onload env) w)) = true /\
       appContent_hidden (page (run (window_onload env) w)) = false
   end) /\
  (loginButton_onclick (page w) <> None ->
   authClient_login env = Throw e ->
   session (run (loginButton_click env) w) = session w /\
   page (run (loginButton_click env) w) = page w /\
   buttons (run (loginButton_click env) w) = buttons w).
Proof.
  split.
  - unfold bootstrap_try, detect, window_onload, onload_try, initII, initII_try,
      run, try_catch, bind, await, lift, console_error, showAlert.
    destruct (plug env).
    + destruct (plug_createAgent env) as [u|e0]; cbn -[handleAuthenticated].
      * destruct (isAuthenticated env) as [[|]|e1]; cbn -[handleAuthenticated].
        -- pose proof (handleAuthenticated_effects env w) as (Ha & Hx & Hy & _).
           unfold run in Ha, Hx, Hy.
           destruct (handleAuthenticated env w) as [[u'|e'] w'];
             cbn -[handleAuthenticated] in *; [discriminate|].
           intros _. rewrite Ha. split; [eexists; reflexivity|]. split; assumption.
        -- discriminate.
        -- intros _. split; [eexists; reflexivity|]. repeat split.
      * intros _. split; [eexists; reflexivity|]. repeat split.
    + destruct (AuthClient_create env) as [u|e0]; cbn -[handleAuthenticated].
      * destruct (isAuthenticated env) as [[|]|e1]; cbn -[handleAuthenticated].
        -- pose proof (handleAuthenticated_effects env w) as (Ha & Hx & Hy & _).
           unfold run in Ha, Hx, Hy.
           destruct (handleAuthenticated env w) as [[u'|e'] w'];
             cbn -[handleAuthenticated] in *; [discriminate|].
           intros _. rewrite Ha. split; [eexists; reflexivity|]. split; assumption.
        -- discriminate.
        -- intros _. split; [eexists; reflexivity|]. repeat split.
      * intros _. split; [eexists; reflexivity|]. repeat split.
  - intros Hh Hl.
    destruct (loginButton_onclick (page w)) as [h|] eqn:Eh; [|congruence].
    unfold run. rewrite (loginButton_click_login_rejected env w h e Eh Hl).
    repeat split.
Qed.

Lemma C4_bootstrap_exception_notified_witness :
  (fst (bootstrap_try no_provider_env fresh_world) = Throw (Error "IndexedDB unavailable") /\
   (exists text,
       alerts (run (window_onload no_provider_env) fresh_world)
       = (alerts fresh_world ++ [mkAlert text "danger"])%list) /\
   pre_authentication (run (window_onload no_provider_env) fresh_world)) /\
  (loginButton_onclick (page login_view_world) <> None /\
   authClient_login login_rejected_env = Throw (Error "UserInterrupt") /\
   page (run (loginButton_click login_rejected_env) login_view_world)
   = page login_view_world).
Proof.
  split.
  - split; [reflexivity|].
    destruct (proj1 (C4_bootstrap_exception_notified no_provider_env fresh_world
                       (Error "IndexedDB unavailable")) eq_refl)
      as (Halert & _ & Hpage & _).
    split; [exact Halert|]. unfold pre_authentication. rewrite Hpage.
    split; reflexivity.
  - split; [discriminate|]. split; [reflexivity|].
    destruct (proj2 (C4_bootstrap_exception_notified login_rejected_env login_view_world
                       (Error "UserInterrupt")))
      as (_ & Hpage & _); [discriminate|reflexivity|exact Hpage].
Defined.

(** C5.  [handleAuthenticated], the one place of the bootstrap that talks
    to the network before any proxy exists, sends the root-key request if
    and only if the configured network is not [ic]; it sends it at most
    once; and over the whole of [window.onload] a root-key request goes
    out exactly when the network is not [ic] and the provider reports an
    authenticated user. *)
Theorem C5_root_key_iff_not_production (env : Env) (w : World) :
  (existsb is_fetchRootKey (emitted (handleAuthenticated env) w) = true
   <-> DFX_NETWORK env <> Some "ic") /\
  List.length (filter is_fetchRootKey (emitted (handleAuthenticated env) w)) <= 1 /\
  (existsb is_fetchRootKey (emitted (window_onload env) w) = true
   <-> DFX_NETWORK env <> Some "ic" /\ detect env = Ok true).
Proof.
  assert (Htail : forall l, In l (handleAuthenticated_tail env) -> is_fetchRootKey l = false).
  { unfold handleAuthenticated_tail. intros l.
    destruct (if not_ic env then agent_fetchRootKey env else Ok tt);
      destruct (createActor env wakili_backend);
      destruct (createActor env internet_identity); cbn; intuition (subst; reflexivity). }
  assert (Hex : existsb is_fetchRootKey (handleAuthenticated_tail env) = false).
  { destruct (existsb is_fetchRootKey (handleAuthenticated_tail env)) eqn:E; [|reflexivity].
    apply existsb_exists in E. destruct E as (l & Hin & Hl).
    rewrite (Htail l Hin) in Hl. discriminate. }
  assert (Hfil : filter is_fetchRootKey (handleAuthenticated_tail env) = []).
  { unfold handleAuthenticated_tail.
    destruct (if not_ic env then agent_fetchRootKey env else Ok tt);
      destruct (createActor env wakili_backend);
      destruct (createActor env internet_identity); reflexivity. }
  assert (Hem : forall w0, emitted (handleAuthenticated env) w0
                = ((if not_ic env then [fetchRootKey (host env)] else [])
                     ++ handleAuthenticated_tail env)%list).
  { intros w0. unfold emitted.
    destruct (handleAuthenticated_effects env w0) as (_ & _ & _ & Hc).
    rewrite Hc. apply skipn_emitted. }
  split; [|split].
  - rewrite Hem, existsb_app, Hex, orb_false_r, <- not_ic_spec.
    destruct (not_ic env); cbn; split; congruence.
  - rewrite Hem, filter_app, Hfil, app_nil_r.
    destruct (not_ic env); cbn; lia.
  - rewrite <- not_ic_spec.
    unfold emitted, detect, window_onload, onload_try, initII, initII_try,
      run, try_catch, bind, await, lift, console_error, showAlert.
    pose proof (Hem w) as Hw. unfold emitted, run in Hw.
    destruct (plug env).
    + destruct (plug_createAgent env) as [u|e0]; cbn -[handleAuthenticated].
      * destruct (isAuthenticated env) as [[|]|e1]; cbn -[handleAuthenticated].
        -- destruct (handleAuthenticated env w) as [[u'|e'] w']; cbn -[handleAuthenticated] in *;
             rewrite Hw, existsb_app, Hex, orb_false_r;
             destruct (not_ic env); cbn; intuition congruence.
        -- rewrite skipn_all. cbn. intuition congruence.
        -- rewrite skipn_all. cbn. intuition congruence.
      * rewrite skipn_all. cbn. intuition congruence.
    + destruct (AuthClient_create env) as [u|e0]; cbn -[handleAuthenticated].
      * destruct (isAuthenticated env) as [[|]|e1]; cbn -[handleAuthenticated].
        -- destruct (handleAuthenticated env w) as [[u'|e'] w']; cbn -[handleAuthenticated] in *;
             rewrite Hw, existsb_app, Hex, orb_false_r;
             destruct (not_ic env); cbn; intuition congruence.
        -- rewrite skipn_all. cbn. intuition congruence.
        -- rewrite skipn_all. cbn. intuition congruence.
      * rewrite skipn_all. cbn. intuition congruence.
Qed.

(** C6.  When the prompt of the advice or of the document command is
    empty, the click sends nothing, shows one warning notification and
    leaves every button, the trigger included, as it was. *)
Theorem C6_empty_prompt_warns_without_call (c : command) (env : Env) (w : World) :
  command_prompt c w = EmptyString ->
  emitted (command_click c env) w = [] /\
  calls (run (command_click c env) w) = calls w /\
  (exists text,
      alerts (run (command_click c env) w) = (alerts w ++ [mkAlert text "warning"])%list) /\
  buttons (run (command_click c env) w) = buttons w.
Proof.
  intros Hprompt.
  destruct c; unfold_handlers; cbn in Hprompt; rewrite Hprompt; step_handler;
    (split; [apply skipn_all|]); (split; [reflexivity|]);
    (split; [eexists; reflexivity|reflexivity]).
Qed.

Lemma C6_empty_prompt_warns_without_call_witness :
  command_prompt get_advice fresh_world = EmptyString /\
  (emitted (command_click get_advice local_env) fresh_world = [] /\
   calls (run (command_click get_advice local_env) fresh_world) = calls fresh_world /\
   (exists text,
       alerts (run (command_click get_advice local_env) fresh_world)
       = (alerts fresh_world ++ [mkAlert text "warning"])%list) /\
   buttons (run (command_click get_advice local_env) fresh_world) = buttons fresh_world).
Proof.
  split; [reflexivity|].
  apply (C6_empty_prompt_warns_without_call get_advice local_env fresh_world).
  reflexivity.
Defined.

(** C7.  With the backend proxy in place and a non-empty prompt, the
    advice command sends exactly one [generate_legal_advice] request (the
    only other request is the profile fetch that follows it); the request
    carries the prompt, no document type, the state of the confidentiality
    box, and as context [null] when the context field is empty and the
    field's text otherwise. *)
Theorem C7_advice_request (env : Env) (w : World) :
  actor (session w) <> None ->
  advicePrompt (form w) <> EmptyString ->
  emitted (getAdviceBtn_click env) w
  = [generate_legal_advice
       (mkRequest (advicePrompt (form w)) None
          match adviceContext (form w) with
          | EmptyString => None
          | String _ _ => Some (adviceContext (form w))
          end
          (confidentialCheck (form w)));
     get_user_profile].
Proof.
  intros Hactor Hprompt. unfold emitted.
  rewrite (getAdviceBtn_click_calls env w Hactor Hprompt), skipn_emitted.
  unfold or_null. destruct (adviceContext (form w)); reflexivity.
Qed.

Lemma C7_advice_request_witness :
  actor (session signed_in_world) <> None /\
  advicePrompt (form signed_in_world) <> EmptyString /\
  emitted (getAdviceBtn_click local_env) signed_in_world
  = [generate_legal_advice
       (mkRequest (advicePrompt (form signed_in_world)) None
          match adviceContext (form signed_in_world) with
          | EmptyString => None
          | String _ _ => Some (adviceContext (form signed_in_world))
          end
          (confidentialCheck (form signed_in_world)));
     get_user_profile].
Proof.
  split; [discriminate|]. split; [discriminate|].
  apply (C7_advice_request local_env signed_in_world); discriminate.
Defined.

(** C8.  With the backend proxy in place and a non-empty prompt, every
    run of the advice or of the document command sends the profile fetch
    exactly once, whatever the canister does with the generation call:
    success, a failure tag or a rejection. *)
Theorem C8_profile_refetched_once (c : command) (env : Env) (w : World) :
  actor (session w) <> None ->
  command_prompt c w <> EmptyString ->
  List.length (filter is_get_user_profile (emitted (command_click c env) w)) = 1.
Proof.
  intros Hactor Hprompt. unfold emitted.
  destruct c; cbn [command_click command_prompt] in *.
  - rewrite (getAdviceBtn_click_calls env w Hactor Hprompt), skipn_emitted. reflexivity.
  - rewrite (generateDocBtn_click_calls env w Hactor Hprompt), skipn_emitted. reflexivity.
Qed.

Lemma C8_profile_refetched_once_witness :
  actor (session signed_in_world) <> None /\
  command_prompt generate_document signed_in_world <> EmptyString /\
  List.length (filter is_get_user_profile
                 (emitted (command_click generate_document local_env) signed_in_world)) = 1.
Proof.
  split; [discriminate|]. split; [discriminate|].
  apply (C8_profile_refetched_once generate_document local_env signed_in_world);
    discriminate.
Defined.

(** The preview expression of line 256, taken by itself: the content
    unchanged when it has at most 100 characters, and otherwise its first
    100 characters followed by three dots. *)
Lemma docPreview_truncation (content : string) :
  (String.length content <= 100 /\ docPreview content = content) \/
  (100 < String.length content /\
   exists head tail,
     content = head ++ tail /\ String.length head = 100 /\
     docPreview content = head ++ "...").
Proof.
  unfold docPreview.
  destruct (Nat.ltb_spec 100 (String.length content)) as [Hlong|Hshort].
  - right. split; [exact Hlong|].
    destruct (substring_head 100 content) as (tail & Hs & Hl); [lia|].
    exists (String.substring 0 100 content), tail. repeat split; assumption.
  - left. split; [exact Hshort|reflexivity].
Qed.

(** C9 (defect in the code, evaluated).  For a document of 150
    characters the preview expression gives the first 100 characters
    followed by three dots, and for one of 50 characters the content
    itself; but neither preview is shown.  The renderer throws on its next
    statement, the division by a BigInt of C2, before any card is built,
    and after the fetch the list holds the error line and no preview. *)
Theorem C9_preview_never_shown :
  docPreview (content_of_length 150) = content_of_length 100 ++ "..." /\
  docPreview (content_of_length 50) = content_of_length 50 /\
  documentsList
    (page (run (loadUserDocuments
                  (documents_env
                     [("advice_ContractReview_1700000000000000000",
                       content_of_length 150)]))
               signed_in_world))
  = [Placeholder "text-danger" "Error loading documents"] /\
  documentsList
    (page (run (loadUserDocuments
                  (documents_env
                     [("advice_ContractReview_1700000000000000000",
                       content_of_length 50)]))
               signed_in_world))
  = [Placeholder "text-danger" "Error loading documents"].
Proof. repeat split; vm_compute; reflexivity. Qed.

(** C10.  While there is no current document, a click on the download or
    on the save trigger returns at once and leaves the world exactly as it
    was: nothing sent, nothing shown, nothing changed.  The validation
    failures of the other three commands, in contrast, each show a
    warning. *)
Theorem C10_no_document_silent (env : Env) (w : World) :
  currentDocument (session w) = None ->
  downloadDocBtn_click env w = (Ok tt, w) /\
  saveDocBtn_click env w = (Ok tt, w) /\
  (forall v, advicePrompt (form v) = EmptyString ->
     alerts (run (getAdviceBtn_click env) v)
     = (alerts v ++ [mkAlert "Please enter your legal question" "warning"])%list) /\
  (forall v, docPrompt (form v) = EmptyString ->
     alerts (run (generateDocBtn_click env) v)
     = (alerts v ++ [mkAlert "Please describe the document you need" "warning"])%list) /\
  (forall v, trim (userNameInput (form v)) = EmptyString ->
     alerts (run (updateNameBtn_click env) v)
     = (alerts v ++ [mkAlert "Please enter a name" "warning"])%list).
Proof.
  intros Hdoc. repeat split.
  - unfold_handlers. rewrite Hdoc. reflexivity.
  - unfold_handlers. rewrite Hdoc. reflexivity.
  - intros v Hv. unfold_handlers. rewrite Hv. reflexivity.
  - intros v Hv. unfold_handlers. rewrite Hv. reflexivity.
  - intros v Hv. unfold_handlers. rewrite Hv. reflexivity.
Qed.

Lemma C10_no_document_silent_witness :
  currentDocument (session signed_in_world) = None /\
  downloadDocBtn_click local_env signed_in_world = (Ok tt, signed_in_world) /\
  saveDocBtn_click local_env signed_in_world = (Ok tt, signed_in_world).
Proof.
  split; [reflexivity|].
  destruct (C10_no_document_silent local_env signed_in_world eq_refl) as (Hd & Hs & _).
  split; [exact Hd | exact Hs].
Defined.

(** ** Further properties of the script *)

(** *** Strings *)

Lemma trimEnd_idempotent (s : string) : trimEnd (trimEnd s) = trimEnd s.
Proof.
  induction s as [|c r IH]; [reflexivity|].
  cbn [trimEnd].
  destruct (is_white_space c && negb (truthy (trimEnd r)))%bool eqn:E; [reflexivity|].
  cbn [trimEnd]. rewrite IH, E. reflexivity.
Qed.

Lemma trimStart_fixed (s : string) :
  match s with
  | EmptyString => True
  | String c _ => is_white_space c = false
  end ->
  trimStart s = s.
Proof. destruct s as [|c r]; [reflexivity|]. cbn. intros ->. reflexivity. Qed.

Lemma trimStart_head (s : string) :
  match trimStart s with
  | EmptyString => True
  | String c _ => is_white_space c = false
  end.
Proof.
  induction s as [|c r IH]; [exact I|].
  cbn [trimStart]. destruct (is_white_space c) eqn:E; [exact IH | exact E].
Qed.

Lemma trimEnd_head (s : string) :
  match s with
  | EmptyString => True
  | String c _ => is_white_space c = false
  end ->
  match trimEnd s with
  | EmptyString => True
  | String c _ => is_white_space c = false
  end.
Proof.
  destruct s as [|c r]; [intros _; exact I|].
  intros Hc. cbn [trimEnd]. rewrite Hc. cbn. exact Hc.
Qed.

(** Trimming twice is trimming once. *)
Lemma trim_idempotent (s : string) : trim (trim s) = trim s.
Proof.
  unfold trim.
  rewrite (trimStart_fixed (trimEnd (trimStart s))).
  - apply trimEnd_idempotent.
  - apply trimEnd_head, trimStart_head.
Qed.

Lemma occurs_trimStart (c : ascii) (s : string) :
  occurs c s = false -> occurs c (trimStart s) = false.
Proof.
  induction s as [|d r IH]; [auto|].
  cbn [trimStart]. destruct (is_white_space d); [|auto].
  cbn [occurs]. intros H. apply orb_false_iff in H. apply IH, H.
Qed.

Lemma occurs_trimEnd (c : ascii) (s : string) :
  occurs c s = false -> occurs c (trimEnd s) = false.
Proof.
  induction s as [|d r IH]; [auto|].
  cbn [trimEnd occurs]. intros H. apply orb_false_iff in H. destruct H as [Hd Hr].
  destruct (is_white_space d && negb (truthy (trimEnd r)))%bool; [reflexivity|].
  cbn [occurs]. rewrite Hd, (IH Hr). reflexivity.
Qed.

Lemma occurs_trim (c : ascii) (s : string) :
  occurs c s = false -> occurs c (trim s) = false.
Proof. intros H. unfold trim. apply occurs_trimEnd, occurs_trimStart, H. Qed.

Lemma strip_tags_no_open (inside : bool) (s : string) :
  occurs "<" (strip_tags inside s) = false.
Proof.
  revert inside. induction s as [|c r IH]; intros inside; [reflexivity|].
  cbn [strip_tags]. destruct inside; [apply IH|].
  destruct (Ascii.eqb c "<") eqn:E; [apply IH|].
  cbn [occurs]. rewrite E, IH. reflexivity.
Qed.

Lemma strip_tags_plain (s : string) :
  occurs "<" s = false -> strip_tags false s = s.
Proof.
  induction s as [|c r IH]; [reflexivity|].
  cbn [occurs strip_tags]. intros H. apply orb_false_iff in H. destruct H as [Hc Hr].
  rewrite Hc, (IH Hr). reflexivity.
Qed.

Lemma strip_tags_spinner (s : string) :
  strip_tags false (spinner ++ s) = strip_tags false s.
Proof. reflexivity. Qed.

(** The text of a button that carries a busy label is the text that went
    into the label. *)
Lemma textContent_busy (b : Button) (d : bool) :
  textContent (mkButton d (busy_label b)) = trim (textContent b).
Proof.
  unfold textContent, busy_label. cbn [innerHTML].
  rewrite strip_tags_spinner. apply strip_tags_plain, occurs_trim, strip_tags_no_open.
Qed.

Lemma plain_no_open (t : string) : plain t = true -> occurs "<" t = false.
Proof.
  induction t as [|c r IH]; [reflexivity|].
  cbn [plain occurs]. intros H. apply andb_true_iff in H. destruct H as [Hc Hr].
  rewrite (IH Hr), orb_false_r.
  unfold plain_char in Hc.
  destruct (Ascii.eqb c "<"); [|reflexivity].
  rewrite !andb_true_iff in Hc. cbn in Hc. intuition discriminate.
Qed.

Lemma plain_trimStart (t : string) : plain t = true -> plain (trimStart t) = true.
Proof.
  induction t as [|c r IH]; [reflexivity|].
  cbn [trimStart]. destruct (is_white_space c); [|auto].
  cbn [plain]. intros H. apply andb_true_iff in H. apply IH, H.
Qed.

Lemma plain_trimEnd (t : string) : plain t = true -> plain (trimEnd t) = true.
Proof.
  induction t as [|c r IH]; [reflexivity|].
  cbn [plain trimEnd]. intros H. apply andb_true_iff in H. destruct H as [Hc Hr].
  destruct (is_white_space c && negb (truthy (trimEnd r)))%bool; [reflexivity|].
  cbn [plain]. rewrite Hc, (IH Hr). reflexivity.
Qed.

Lemma plain_trim (t : string) : plain t = true -> plain (trim t) = true.
Proof. intros H. unfold trim. apply plain_trimEnd, plain_trimStart, H. Qed.

(** The text of a button with a simple label is plain. *)
Lemma simple_label_text (b : Button) :
  simple_label (innerHTML b) -> plain (textContent b) = true.
Proof.
  intros (t & Ht & [Hm|Hm]); unfold textContent; rewrite Hm.
  - rewrite (strip_tags_plain t (plain_no_open t Ht)). exact Ht.
  - rewrite strip_tags_spinner, (strip_tags_plain t (plain_no_open t Ht)). exact Ht.
Qed.

(** X1.  For a trigger whose markup is plain text, possibly preceded by
    the spinner icon, the label reached after one busy period is again of
    that kind and is stable: a further busy period, on or off, writes the
    same markup again.  From the first command on, such a trigger keeps
    the spinner label for good. *)
Theorem toggleButton_label_stable (b : Button) :
  simple_label (innerHTML b) ->
  simple_label (innerHTML (toggleButton (toggleButton b true) false)) /\
  innerHTML (toggleButton (toggleButton (toggleButton b true) false) true)
  = innerHTML (toggleButton b true) /\
  toggleButton (toggleButton (toggleButton (toggleButton b true) false) true) false
  = toggleButton (toggleButton b true) false.
Proof.
  intros Hb.
  assert (H : forall d, trim (textContent (mkButton d (busy_label b)))
                        = trim (textContent b)).
  { intros d. rewrite textContent_busy. apply trim_idempotent. }
  split.
  - rewrite toggleButton_on_off. cbn [innerHTML].
    exists (trim (textContent b)). split; [|right; reflexivity].
    apply plain_trim, simple_label_text, Hb.
  - rewrite !toggleButton_on_off, !toggleButton_on. cbn [innerHTML].
    change (spinner ++ trim (textContent b)) with (busy_label b).
    rewrite !H. split; reflexivity.
Qed.

Lemma toggleButton_label_stable_witness :
  simple_label (innerHTML (mkButton false "Get Advice")) /\
  toggleButton
    (toggleButton (toggleButton (toggleButton (mkButton false "Get Advice") true) false)
                  true) false
  = toggleButton (toggleButton (mkButton false "Get Advice") true) false.
Proof.
  assert (H : simple_label (innerHTML (mkButton false "Get Advice")))
    by (exists "Get Advice"; split; [reflexivity | left; reflexivity]).
  split; [exact H|].
  exact (proj2 (proj2 (toggleButton_label_stable (mkButton false "Get Advice") H))).
Defined.

(** *** Document ids *)

Lemma split_aux_nonempty (sep : ascii) (cur s : string) :
  split_aux sep cur s <> [].
Proof.
  revert cur. induction s as [|c r IH]; intros cur; cbn [split_aux].
  - discriminate.
  - destruct (Ascii.eqb c sep); [discriminate | apply IH].
Qed.

Lemma append_assoc_char (a : string) (c : ascii) (r : string) :
  (a ++ String c EmptyString) ++ r = a ++ String c r.
Proof. induction a as [|d a IH]; cbn; [reflexivity | rewrite IH; reflexivity]. Qed.

Lemma append_empty_r (a : string) : a ++ EmptyString = a.
Proof. induction a as [|d a IH]; cbn; [reflexivity | rewrite IH; reflexivity]. Qed.

Lemma split_aux_join (sep : ascii) (cur s : string) :
  String.concat (String sep EmptyString) (split_aux sep cur s) = cur ++ s.
Proof.
  revert cur. induction s as [|c r IH]; intros cur; cbn [split_aux].
  - cbn. symmetry. apply append_empty_r.
  - destruct (Ascii.eqb_spec c sep) as [->|Hc].
    + pose proof (split_aux_nonempty sep EmptyString r) as Hne.
      specialize (IH EmptyString).
      cbn [String.concat].
      destruct (split_aux sep EmptyString r) as [|x xs]; [congruence|].
      rewrite IH. reflexivity.
    + rewrite IH. apply append_assoc_char.
Qed.

(** Splitting loses nothing: joining the parts of [s.split(sep)]
    with the separator gives [s] back, and there is always at least one
    part. *)
Theorem split_join (s : string) (sep : ascii) :
  String.concat (String sep EmptyString) (split s sep) = s /\ split s sep <> [].
Proof.
  unfold split. split; [apply (split_aux_join sep EmptyString s) | apply split_aux_nonempty].
Qed.

Lemma split_aux_plain (sep : ascii) (cur a : string) :
  occurs sep a = false -> split_aux sep cur a = [cur ++ a].
Proof.
  revert cur. induction a as [|c r IH]; intros cur; cbn [occurs split_aux].
  - intros _. rewrite append_empty_r. reflexivity.
  - intros H. apply orb_false_iff in H. destruct H as [Hc Hr].
    rewrite Hc, (IH _ Hr), append_assoc_char. reflexivity.
Qed.

Lemma split_aux_part (sep : ascii) (cur a r : string) :
  occurs sep a = false ->
  split_aux sep cur (a ++ String sep r) = (cur ++ a) :: split_aux sep EmptyString r.
Proof.
  revert cur. induction a as [|c a IH]; intros cur; cbn [occurs split_aux String.append].
  - intros _. rewrite Ascii.eqb_refl, append_empty_r. reflexivity.
  - intros H. apply orb_false_iff in H. destruct H as [Hc Hr].
    rewrite Hc, (IH _ Hr), append_assoc_char. reflexivity.
Qed.

(** X2.  For every id made of a type, a label and a stamp joined by
    underscores, none of which contains an underscore, the renderer's
    [docId.split('_')] is exactly these three parts: the title it reads
    is the label and the slot it divides is the stamp, still a string. *)
Theorem document_id_parts (type label stamp : string) :
  occurs "_" type = false ->
  occurs "_" label = false ->
  occurs "_" stamp = false ->
  split (type ++ "_" ++ label ++ "_" ++ stamp) "_" = [type; label; stamp] /\
  prim_toString (index (split (type ++ "_" ++ label ++ "_" ++ stamp) "_") 1) = label /\
  index (split (type ++ "_" ++ label ++ "_" ++ stamp) "_") 2 = PString stamp.
Proof.
  intros Ht Hl Hs.
  assert (H : split (type ++ "_" ++ label ++ "_" ++ stamp) "_" = [type; label; stamp]).
  { unfold split. cbn [String.append].
    rewrite (split_aux_part "_" EmptyString type _ Ht).
    rewrite (split_aux_part "_" EmptyString label _ Hl).
    rewrite (split_aux_plain "_" EmptyString stamp Hs). reflexivity. }
  rewrite H. repeat split.
Qed.

Lemma document_id_parts_witness :
  occurs "_" "advice" = false /\
  occurs "_" "ContractReview" = false /\
  occurs "_" "1700000000000000000" = false /\
  split ("advice" ++ "_" ++ "ContractReview" ++ "_" ++ "1700000000000000000") "_"
  = ["advice"; "ContractReview"; "1700000000000000000"].
Proof.
  repeat (split; [reflexivity|]).
  apply (document_id_parts "advice" "ContractReview" "1700000000000000000");
    reflexivity.
Defined.

(** *** Arithmetic on stamps *)

(** Dividing anything that is not a BigInt by a BigInt throws a
    TypeError: strings, numbers, booleans, [null] and [undefined] alike. *)
Theorem div_BigInt_type_mismatch (v : prim) (d : Z) :
  (forall z, v <> PBigInt z) ->
  div_BigInt v d
  = Throw (TypeError "Cannot mix BigInt and other types, use explicit conversions").
Proof.
  intros Hv. destruct v as [| |b|n|z|s]; try reflexivity.
  exfalso. apply (Hv z). reflexivity.
Qed.

Lemma div_BigInt_type_mismatch_witness :
  (forall z, PString "1700000000000000000" <> PBigInt z) /\
  div_BigInt (PString "1700000000000000000") 1000000
  = Throw (TypeError "Cannot mix BigInt and other types, use explicit conversions").
Proof.
  split; [discriminate|].
  apply (div_BigInt_type_mismatch (PString "1700000000000000000") 1000000).
  discriminate.
Defined.

Lemma round_double_exact (z : Z) :
  (Z.abs z < 2 ^ 53)%Z -> round_double z = z.
Proof.
  intros Hz. unfold round_double.
  destruct (Z.leb_spec (Z.log2 (Z.abs z) - 52) 0) as [_|Hl]; [reflexivity|].
  exfalso.
  destruct (Z.eq_dec (Z.abs z) 0) as [H0|H0].
  - rewrite H0 in Hl. cbn in Hl. lia.
  - assert (Hpos : (0 < Z.abs z)%Z) by lia.
    apply (Z.log2_lt_pow2 _ 53 Hpos) in Hz. lia.
Qed.

(** X3.  For every stamp of 64 unsigned bits in nanoseconds, the
    conversion of the profile renderer, [new Date(Number(ns / 1000000n))],
    does not throw, loses nothing to rounding and yields a valid date whose
    time value is the stamp in whole milliseconds. *)
Theorem stamp_to_date (ns : Z) :
  (0 <= ns < 2 ^ 64)%Z ->
  div_BigInt (PBigInt ns) 1000000 = Ok (ns / 1000000)%Z /\
  new_Date (Number_of_BigInt (ns / 1000000)) = TimeValue (ns / 1000000).
Proof.
  intros Hns.
  assert (Hq : (0 <= ns / 1000000 < 18446744073710)%Z).
  { split; [apply Z.div_pos; lia|].
    apply Z.div_lt_upper_bound; [lia|]. change (2 ^ 64)%Z with 18446744073709551616%Z in Hns. lia. }
  split.
  - unfold div_BigInt. cbn [ToNumeric]. cbn [Z.eqb].
    rewrite Z.quot_div_nonneg by lia. reflexivity.
  - unfold Number_of_BigInt, new_Date.
    rewrite round_double_exact.
    + destruct (Z.leb_spec (Z.abs (ns / 1000000)) 8640000000000000) as [_|Hbig];
        [reflexivity|]. lia.
    + change (2 ^ 53)%Z with 9007199254740992%Z. lia.
Qed.

Lemma stamp_to_date_witness :
  (0 <= 1700000000000000000 < 2 ^ 64)%Z /\
  new_Date (Number_of_BigInt (1700000000000000000 / 1000000)) = TimeValue 1700000000000.
Proof.
  assert (H : (0 <= 1700000000000000000 < 2 ^ 64)%Z)
    by (split; [discriminate | reflexivity]).
  split; [exact H|].
  exact (proj2 (stamp_to_date 1700000000000000000 H)).
Defined.

(** *** The response area *)

Lemma prefix_occurs (c : ascii) (pat s : string) :
  String.prefix pat s = true -> occurs c pat = true -> occurs c s = true.
Proof.
  revert s. induction pat as [|a pat IH]; intros s; cbn [String.prefix occurs].
  - intros _ H. discriminate H.
  - destruct s as [|b s]; cbn [String.prefix]; [intros H; discriminate H|].
    destruct (ascii_dec a b) as [->|Hab]; [|intros H; discriminate H].
    intros Hp Ho. cbn [occurs].
    destruct (Ascii.eqb b c); [reflexivity|]. cbn in *. apply (IH s Hp Ho).
Qed.

Lemma replace_all_absent (c : ascii) (s pat rep : string) :
  occurs c pat = true -> occurs c s = false -> replace_all s pat rep = s.
Proof.
  intros Hpat. unfold replace_all.
  induction s as [|d r IH]; [reflexivity|].
  intros Hs. cbn [replace_aux].
  destruct (String.prefix pat (String d r)) eqn:Hp.
  - rewrite (prefix_occurs c pat _ Hp Hpat) in Hs. discriminate.
  - cbn [occurs] in Hs. apply orb_false_iff in Hs. rewrite (IH (proj2 Hs)). reflexivity.
Qed.

(** X4.  A text without line feed and without colon is written to the
    response area exactly as it is: the three markers cannot occur in it,
    and nothing else, markup included, is touched or escaped. *)
Theorem displayResponse_verbatim (text : string) (w : World) :
  occurs "010" text = false ->
  occurs ":" text = false ->
  run (displayResponse text) w = on_page (set_responseArea text) w.
Proof.
  intros Hnl Hcolon. unfold displayResponse, run, lift. cbn [snd].
  rewrite (replace_all_absent "010" text (String "010" EmptyString) "<br>" eq_refl Hnl).
  rewrite (replace_all_absent ":" text "IMPORTANT:" _ eq_refl Hcolon).
  rewrite (replace_all_absent ":" text "NOTE:" _ eq_refl Hcolon).
  rewrite (replace_all_absent ":" text "DISCLAIMER:" _ eq_refl Hcolon).
  reflexivity.
Qed.

Lemma displayResponse_verbatim_witness :
  occurs "010" "<b>Lease</b> for a flat" = false /\
  occurs ":" "<b>Lease</b> for a flat" = false /\
  responseArea (page (run (displayResponse "<b>Lease</b> for a flat") fresh_world))
  = "<b>Lease</b> for a flat".
Proof.
  split; [reflexivity|]. split; [reflexivity|].
  rewrite (displayResponse_verbatim "<b>Lease</b> for a flat" fresh_world eq_refl eq_refl).
  reflexivity.
Defined.

Lemma occurs_append (c : ascii) (a b : string) :
  occurs c (a ++ b) = (occurs c a || occurs c b)%bool.
Proof.
  induction a as [|d a IH]; [reflexivity|].
  cbn. rewrite IH. apply orb_assoc.
Qed.

Lemma occurs_replace_aux (c : ascii) (pat rep : string) (k : nat) (s : string) :
  occurs c rep = false -> occurs c s = false ->
  occurs c (replace_aux pat rep k s) = false.
Proof.
  intros Hrep. revert k. induction s as [|d r IH]; intros k; [reflexivity|].
  cbn [occurs replace_aux]. intros Hs. apply orb_false_iff in Hs. destruct Hs as [Hd Hr].
  destruct k as [|k]; [|apply IH, Hr].
  destruct (String.prefix pat (String d r)).
  - rewrite occurs_append, Hrep. apply IH, Hr.
  - cbn [occurs]. rewrite Hd. apply IH, Hr.
Qed.

Lemma occurs_replace_all (c : ascii) (s pat rep : string) :
  occurs c rep = false -> occurs c s = false ->
  occurs c (replace_all s pat rep) = false.
Proof. apply occurs_replace_aux. Qed.

Lemma occurs_replace_char (c : ascii) (rep s : string) :
  occurs c rep = false ->
  occurs c (replace_all s (String c EmptyString) rep) = false.
Proof.
  intros Hrep. unfold replace_all.
  induction s as [|d r IH]; [reflexivity|].
  cbn [replace_aux].
  destruct (String.prefix (String c EmptyString) (String d r)) eqn:Hp.
  - cbn [String.length Nat.sub]. rewrite occurs_append, Hrep. exact IH.
  - cbn [occurs]. rewrite IH, orb_false_r.
    destruct (Ascii.eqb_spec d c) as [->|Hdc]; [|reflexivity].
    cbn [String.prefix] in Hp.
    destruct (ascii_dec c c) as [_|Hcc]; [destruct r; discriminate Hp | congruence].
Qed.

(** X5.  Whatever the text, what [displayResponse] writes holds no line
    feed: every line break has become a [<br>]. *)
Theorem displayResponse_no_line_feed (text : string) (w : World) :
  occurs "010" (responseArea (page (run (displayResponse text) w))) = false.
Proof.
  unfold displayResponse, run, lift. cbn [snd].
  destruct w as [s f p b a c k d]. cbn.
  do 3 (apply occurs_replace_all; [reflexivity|]).
  apply occurs_replace_char. reflexivity.
Qed.

(** *** The generation commands *)

(** What a generation command sends, in every situation. *)
Lemma command_emitted (c : command) (env : Env) (w : World) :
  emitted (command_click c env) w
  = if truthy (command_prompt c w) then
      match actor (session w) with
      | Some _ => [command_call c w; get_user_profile]
      | None => []
      end
    else [].
Proof.
  destruct (truthy (command_prompt c w)) eqn:Hp.
  - assert (Hne : command_prompt c w <> EmptyString)
      by (intros H; rewrite H in Hp; discriminate).
    destruct (actor (session w)) as [svc|] eqn:Ha.
    + assert (Hact : actor (session w) <> None) by congruence.
      unfold emitted. destruct c; cbn [command_click command_prompt command_call] in *.
      * rewrite (getAdviceBtn_click_calls env w Hact Hne). apply skipn_emitted.
      * rewrite (generateDocBtn_click_calls env w Hact Hne). apply skipn_emitted.
    + destruct c; unfold_handlers; cbn [command_prompt] in Hp; rewrite Hp;
        step_handler; rewrite Ha; step_handler; rewrite Ha; apply skipn_all.
  - destruct c; unfold_handlers; cbn [command_prompt] in Hp; rewrite Hp;
      step_handler; apply skipn_all.
Qed.

(** X6.  No generation request ever leaves with an empty prompt: whatever
    the form holds and whatever the canister does, every
    [generate_legal_advice] or [generate_legal_document] call a command
    sends carries a prompt that is not the empty string. *)
Theorem no_empty_prompt_sent (c : command) (env : Env) (w : World) (x : call) :
  In x (emitted (command_click c env) w) ->
  sent_prompt x <> Some EmptyString.
Proof.
  rewrite command_emitted.
  destruct (truthy (command_prompt c w)) eqn:Hp; [|intros []].
  destruct (actor (session w)); [|intros []].
  intros [<-|[<-|[]]]; [|discriminate].
  destruct c; cbn; intros H; injection H as H; cbn in Hp; rewrite H in Hp; discriminate.
Qed.

Lemma no_empty_prompt_sent_witness :
  In (generate_legal_advice (advice_request signed_in_world))
     (emitted (command_click get_advice local_env) signed_in_world) /\
  sent_prompt (generate_legal_advice (advice_request signed_in_world))
  <> Some EmptyString.
Proof.
  assert (H : In (generate_legal_advice (advice_request signed_in_world))
                 (emitted (command_click get_advice local_env) signed_in_world))
    by (left; reflexivity).
  split; [exact H|].
  exact (no_empty_prompt_sent get_advice local_env signed_in_world _ H).
Defined.

(** X7.  Before the backend proxy exists a generation command sends
    nothing at all, not even the profile fetch; with the proxy and a
    non-empty prompt it sends its request first and the profile fetch
    second, and nothing else. *)
Theorem command_requests (c : command) (env : Env) (w : World) :
  command_prompt c w <> EmptyString ->
  emitted (command_click c env) w
  = match actor (session w) with
    | Some _ => [command_call c w; get_user_profile]
    | None => []
    end.
Proof.
  intros Hp. rewrite command_emitted, (truthy_nonempty _ Hp). reflexivity.
Qed.

Lemma command_requests_witness :
  command_prompt generate_document signed_in_world <> EmptyString /\
  emitted (command_click generate_document local_env) signed_in_world
  = [generate_legal_document
       (mkRequest "A lease for a flat" (Some "contract") (Some "two tenants") false);
     get_user_profile].
Proof.
  split; [discriminate|].
  rewrite (command_requests generate_document local_env signed_in_world);
    [reflexivity | discriminate].
Defined.

(** X8.  No exception escapes the handlers that wrap their work in
    [try]/[catch]: the four command handlers, the download handler, the
    View handler, the two fetches, [initII] and [window.onload] all end
    normally for every environment and every world. *)
Theorem handlers_end_normally (env : Env) (w : World) (docId : option string) :
  fst (getAdviceBtn_click env w) = Ok tt /\
  fst (generateDocBtn_click env w) = Ok tt /\
  fst (saveDocBtn_click env w) = Ok tt /\
  fst (updateNameBtn_click env w) = Ok tt /\
  fst (downloadDocBtn_click env w) = Ok tt /\
  fst (viewDocBtn_click env docId w) = Ok tt /\
  fst (loadUserProfile env w) = Ok tt /\
  fst (loadUserDocuments env w) = Ok tt /\
  fst (initII env w) = Ok tt /\
  fst (window_onload env w) = Ok tt.
Proof.
  repeat split.
  - unfold_handlers. destruct (truthy (advicePrompt (form w))); step_handler; [|reflexivity].
    destruct (actor (session w)); step_handler; [|reflexivity].
    destruct (reply_generate_legal_advice env _) as [r|e]; step_handler; [|reflexivity].
    destruct (status r =? "success"); reflexivity.
  - unfold_handlers. destruct (truthy (docPrompt (form w))); step_handler; [|reflexivity].
    destruct (actor (session w)); step_handler; [|reflexivity].
    destruct (reply_generate_legal_document env _) as [r|e]; step_handler; [|reflexivity].
    destruct (generated_document r); reflexivity.
  - unfold_handlers. step_handler.
    destruct (currentDocument (session w)) as [t|]; [destruct (truthy t)|]; reflexivity.
  - unfold_handlers. step_handler.
    destruct (truthy (trim (userNameInput (form w)))); step_handler; [|reflexivity].
    destruct (actor (session w)); step_handler; [|reflexivity].
    destruct (reply_update_user_name env _); reflexivity.
  - unfold_handlers.
    destruct (currentDocument (session w)) as [t|]; [destruct (truthy t)|]; reflexivity.
  - unfold viewDocBtn_click. unfold_handlers. unfold displayResponse, lift.
    destruct (actor (session w)); [|reflexivity].
    destruct (reply_get_document env docId); reflexivity.
  - rewrite loadUserProfile_run. reflexivity.
  - rewrite loadUserDocuments_run. reflexivity.
  - unfold initII, initII_try. unfold_handlers. unfold await.
    destruct (plug_createAgent env); [|reflexivity].
    destruct (isAuthenticated env) as [[|]|]; try reflexivity.
    destruct (handleAuthenticated env w) as [[[]|e] w']; reflexivity.
  - unfold window_onload, onload_try, initII, initII_try. unfold_handlers. unfold await.
    destruct (plug env).
    + destruct (plug_createAgent env); [|reflexivity].
      destruct (isAuthenticated env) as [[|]|]; try reflexivity.
      destruct (handleAuthenticated env w) as [[[]|e] w']; reflexivity.
    + destruct (AuthClient_create env); [|reflexivity].
      destruct (isAuthenticated env) as [[|]|]; try reflexivity.
      destruct (handleAuthenticated env w) as [[[]|e] w']; reflexivity.
Qed.

(** X9.  A document generation that succeeds with a non-empty document
    makes that document the current one, reveals the document actions and
    shows the formatted document; no notification appears. *)
Theorem generateDoc_success (env : Env) (w : World) (r : Response) (d : string) :
  actor (session w) <> None ->
  docPrompt (form w) <> EmptyString ->
  reply_generate_legal_document env (document_request w) = Ok r ->
  generated_document r = Some d ->
  currentDocument (session (run (generateDocBtn_click env) w)) = Some d /\
  documentOutput_hidden (page (run (generateDocBtn_click env) w)) = false /\
  responseArea (page (run (generateDocBtn_click env) w)) = formatted d /\
  alerts (run (generateDocBtn_click env) w) = alerts w.
Proof.
  intros Hactor Hprompt Hreply Hdoc. unfold document_request in Hreply.
  unfold_handlers. rewrite (truthy_nonempty _ Hprompt). step_handler.
  destruct (actor (session w)) as [svc|] eqn:Ha; [|congruence].
  rewrite Hreply. step_handler. rewrite Hdoc. step_handler.
  rewrite Ha. step_handler. unfold formatted. repeat split; reflexivity.
Qed.

Lemma generateDoc_success_witness :
  actor (session signed_in_world) <> None /\
  docPrompt (form signed_in_world) <> EmptyString /\
  currentDocument (session (run (generateDocBtn_click local_env) signed_in_world))
  = Some "LEASE AGREEMENT".
Proof.
  split; [discriminate|]. split; [discriminate|].
  apply (generateDoc_success local_env signed_in_world
           (mkResponse "success" "drafted" (Some "LEASE AGREEMENT")) "LEASE AGREEMENT");
    [discriminate | discriminate | reflexivity | reflexivity].
Defined.

(** X10.  A document generation that fails, by a reply that is not a
    success carrying a document or by a rejection, leaves the session as
    it was (an earlier current document stays current and downloadable),
    leaves the document actions as they were, and shows an error line in
    the response area: the fixed text for a reply, the exception's message
    (or a fallback when it has none) for a rejection. *)
Theorem generateDoc_failure (env : Env) (w : World) :
  actor (session w) <> None ->
  docPrompt (form w) <> EmptyString ->
  (forall r, reply_generate_legal_document env (document_request w) = Ok r ->
             generated_document r = None) ->
  session (run (generateDocBtn_click env) w) = session w /\
  documentOutput_hidden (page (run (generateDocBtn_click env) w))
  = documentOutput_hidden (page w) /\
  responseArea (page (run (generateDocBtn_click env) w))
  = formatted
      ("Error: " ++
       match reply_generate_legal_document env (document_request w) with
       | Ok _ => "Document generation failed"
       | Throw e => or_else (message e) "Failed to generate document"
       end).
Proof.
  intros Hactor Hprompt Hfail. unfold document_request in *.
  unfold_handlers. rewrite (truthy_nonempty _ Hprompt). step_handler.
  destruct (actor (session w)) as [svc|] eqn:Ha; [|congruence].
  destruct (reply_generate_legal_document env _) as [r|e]; step_handler.
  - rewrite (Hfail r eq_refl). step_handler. rewrite Ha.
    step_handler. unfold formatted. repeat split; reflexivity.
  - rewrite Ha. step_handler. unfold formatted. repeat split; reflexivity.
Qed.

Lemma generateDoc_failure_witness :
  actor (session document_world) <> None /\
  docPrompt (form document_world) <> EmptyString /\
  currentDocument (session (run (generateDocBtn_click backend_down_env) document_world))
  = Some "LEASE AGREEMENT" /\
  responseArea (page (run (generateDocBtn_click backend_down_env) document_world))
  = "Error: Canister rejected the call".
Proof.
  split; [discriminate|]. split; [discriminate|].
  destruct (generateDoc_failure backend_down_env document_world) as (Hs & _ & Hr);
    [discriminate | discriminate | intros r H; discriminate H |].
  split; [rewrite Hs; reflexivity | rewrite Hr; reflexivity].
Defined.

(** X11.  An advice command that succeeds clears the current document,
    hides the document actions and shows the formatted advice. *)
Theorem getAdvice_success (env : Env) (w : World) (r : Response) :
  actor (session w) <> None ->
  advicePrompt (form w) <> EmptyString ->
  reply_generate_legal_advice env (advice_request w) = Ok r ->
  status r = "success" ->
  currentDocument (session (run (getAdviceBtn_click env) w)) = None /\
  documentOutput_hidden (page (run (getAdviceBtn_click env) w)) = true /\
  responseArea (page (run (getAdviceBtn_click env) w)) = formatted (response r) /\
  alerts (run (getAdviceBtn_click env) w) = alerts w.
Proof.
  intros Hactor Hprompt Hreply Hstatus. unfold advice_request in Hreply.
  unfold_handlers. rewrite (truthy_nonempty _ Hprompt). step_handler.
  destruct (actor (session w)) as [svc|] eqn:Ha; [|congruence].
  rewrite Hreply. step_handler. rewrite Hstatus. step_handler.
  rewrite Ha. step_handler. unfold formatted. repeat split; reflexivity.
Qed.

Lemma getAdvice_success_witness :
  actor (session document_world) <> None /\
  advicePrompt (form document_world) <> EmptyString /\
  currentDocument (session (run (getAdviceBtn_click local_env) document_world)) = None /\
  responseArea (page (run (getAdviceBtn_click local_env) document_world))
  = "<strong>NOTE:</strong> ask a lawyer".
Proof.
  split; [discriminate|]. split; [discriminate|].
  destruct (getAdvice_success local_env document_world
              (mkResponse "success" "NOTE: ask a lawyer" None))
    as (Hd & _ & Hr & _);
    [discriminate | discriminate | reflexivity | reflexivity |].
  split; [exact Hd | rewrite Hr; reflexivity].
Defined.

(** X12.  An advice command that fails leaves the session and the
    document actions as they were and shows an error line.  For a reply
    whose status is not "success" the line is the text form of the reply
    object, so whatever the backend said about the failure is not shown;
    for a rejection it is the exception's message, or a fallback. *)
Theorem getAdvice_failure (env : Env) (w : World) :
  actor (session w) <> None ->
  advicePrompt (form w) <> EmptyString ->
  (forall r, reply_generate_legal_advice env (advice_request w) = Ok r ->
             status r <> "success") ->
  session (run (getAdviceBtn_click env) w) = session w /\
  documentOutput_hidden (page (run (getAdviceBtn_click env) w))
  = documentOutput_hidden (page w) /\
  responseArea (page (run (getAdviceBtn_click env) w))
  = formatted
      ("Error: " ++
       match reply_generate_legal_advice env (advice_request w) with
       | Ok _ => "[object Object]"
       | Throw e => or_else (message e) "Failed to get legal advice"
       end).
Proof.
  intros Hactor Hprompt Hfail. unfold advice_request in *.
  unfold_handlers. rewrite (truthy_nonempty _ Hprompt). step_handler.
  destruct (actor (session w)) as [svc|] eqn:Ha; [|congruence].
  destruct (reply_generate_legal_advice env _) as [r|e]; step_handler.
  - destruct (String.eqb_spec (status r) "success") as [Hs|Hs];
      [elim (Hfail r eq_refl Hs)|].
    step_handler. rewrite Ha.
    step_handler. unfold formatted. repeat split; reflexivity.
  - rewrite Ha. step_handler. unfold formatted. repeat split; reflexivity.
Qed.

Lemma getAdvice_failure_witness :
  actor (session document_world) <> None /\
  advicePrompt (form document_world) <> EmptyString /\
  session (run (getAdviceBtn_click backend_down_env) document_world)
  = session document_world /\
  responseArea (page (run (getAdviceBtn_click backend_down_env) document_world))
  = "Error: Canister rejected the call".
Proof.
  split; [discriminate|]. split; [discriminate|].
  destruct (getAdvice_failure backend_down_env document_world) as (Hs & _ & Hr);
    [discriminate | discriminate | intros r H; discriminate H |].
  split; [exact Hs | rewrite Hr; reflexivity].
Defined.

Lemma generated_document_nonempty (r : Response) (d : string) :
  generated_document r = Some d -> d <> EmptyString.
Proof.
  unfold generated_document.
  destruct (status r =? "success"); [|discriminate].
  destruct (document r) as [t|]; [|discriminate].
  destruct t; cbn; [discriminate|]. intros H. injection H as <-. discriminate.
Qed.

(** *** Download, save, rename, view *)

(** X13.  With a current document that is not the empty text, the
    download handler offers exactly one file, named
    "legal_document_" followed by today's date and ".txt" and holding the
    document as it is; it sends nothing and changes nothing else. *)
Theorem download_offers_document (env : Env) (w : World) (text : string) :
  currentDocument (session w) = Some text ->
  text <> EmptyString ->
  run (downloadDocBtn_click env) w
  = add_download ("legal_document_" ++ today env ++ ".txt") text w.
Proof.
  intros Hdoc Htext. unfold_handlers. rewrite Hdoc, (truthy_nonempty _ Htext).
  reflexivity.
Qed.

Lemma download_offers_document_witness :
  currentDocument (session document_world) = Some "LEASE AGREEMENT" /\
  "LEASE AGREEMENT" <> EmptyString /\
  downloads (run (downloadDocBtn_click local_env) document_world)
  = [("legal_document_2026-01-01.txt", "LEASE AGREEMENT")].
Proof.
  split; [reflexivity|]. split; [discriminate|].
  rewrite (download_offers_document local_env document_world "LEASE AGREEMENT");
    [reflexivity | reflexivity | discriminate].
Defined.

(** X14.  Generation and download compose: right after a generation that
    succeeded with document [d], a click on download offers [d], and
    right after an advice that succeeded a click on download offers
    nothing, whatever document was current before. *)
Theorem download_after_command (env : Env) (w : World) :
  actor (session w) <> None ->
  (forall r d,
      docPrompt (form w) <> EmptyString ->
      reply_generate_legal_document env (document_request w) = Ok r ->
      generated_document r = Some d ->
      downloads (run (downloadDocBtn_click env) (run (generateDocBtn_click env) w))
      = (downloads w ++ [(("legal_document_" ++ today env ++ ".txt")%string, d)])%list) /\
  (forall r,
      advicePrompt (form w) <> EmptyString ->
      reply_generate_legal_advice env (advice_request w) = Ok r ->
      status r = "success" ->
      downloads (run (downloadDocBtn_click env) (run (getAdviceBtn_click env) w))
      = downloads w).
Proof.
  intros Hactor. split.
  - intros r d Hprompt Hreply Hdoc.
    pose proof (generated_document_nonempty r d Hdoc) as Hd.
    unfold document_request in Hreply.
    unfold_handlers. rewrite (truthy_nonempty _ Hprompt). step_handler.
    destruct (actor (session w)) as [svc|] eqn:Ha; [|congruence].
    rewrite Hreply. step_handler. rewrite Hdoc. step_handler. rewrite Ha.
    step_handler. rewrite (truthy_nonempty _ Hd). reflexivity.
  - intros r Hprompt Hreply Hstatus.
    unfold advice_request in Hreply.
    unfold_handlers. rewrite (truthy_nonempty _ Hprompt). step_handler.
    destruct (actor (session w)) as [svc|] eqn:Ha; [|congruence].
    rewrite Hreply. step_handler. rewrite Hstatus. step_handler. rewrite Ha.
    reflexivity.
Qed.

Lemma download_after_command_witness :
  actor (session signed_in_world) <> None /\
  downloads (run (downloadDocBtn_click local_env)
                 (run (generateDocBtn_click local_env) signed_in_world))
  = [("legal_document_2026-01-01.txt", "LEASE AGREEMENT")].
Proof.
  split; [discriminate|].
  assert (Ha : actor (session signed_in_world) <> None) by discriminate.
  rewrite (proj1 (download_after_command local_env signed_in_world Ha)
             (mkResponse "success" "drafted" (Some "LEASE AGREEMENT")) "LEASE AGREEMENT");
    [reflexivity | discriminate | reflexivity | reflexivity].
Defined.

(** X15.  With a current document, the save handler sends one
    [get_user_documents] request and no other, reports
    "Document saved successfully!" whether or not that request succeeds,
    and leaves the session as it was; no call that stores the document is
    made. *)
Theorem saveDoc_refreshes_list (env : Env) (w : World) :
  actor (session w) <> None ->
  no_document (currentDocument (session w)) = false ->
  emitted (saveDocBtn_click env) w = [get_user_documents] /\
  alerts (run (saveDocBtn_click env) w)
  = (alerts w ++ [mkAlert "Document saved successfully!" "success"])%list /\
  session (run (saveDocBtn_click env) w) = session w.
Proof.
  intros Hactor Hdoc. unfold_handlers. unfold no_document in Hdoc.
  step_handler. rewrite Hdoc. step_handler.
  autorewrite with wakili_frame. step_handler.
  destruct (actor (session w)); [|congruence].
  rewrite skipn_emitted. repeat split; reflexivity.
Qed.

Lemma saveDoc_refreshes_list_witness :
  actor (session document_world) <> None /\
  no_document (currentDocument (session document_world)) = false /\
  emitted (saveDocBtn_click backend_down_env) document_world = [get_user_documents] /\
  alerts (run (saveDocBtn_click backend_down_env) document_world)
  = [mkAlert "Document saved successfully!" "success"].
Proof.
  split; [discriminate|]. split; [reflexivity|].
  destruct (saveDoc_refreshes_list backend_down_env document_world) as (He & Ha & _);
    [discriminate | reflexivity |].
  split; [exact He | exact Ha].
Defined.

(** X16.  The rename handler sends the typed name with the surrounding
    white space removed.  If the backend accepts it, the profile is
    fetched again and a success notification is shown; if the backend
    rejects it, the profile is not fetched and an error notification is
    shown.  Either way nothing but notifications, requests and the
    console differ from before, apart from the trigger's label. *)
Theorem updateName_outcome (env : Env) (w : World) :
  actor (session w) <> None ->
  trim (userNameInput (form w)) <> EmptyString ->
  match reply_update_user_name env (trim (userNameInput (form w))) with
  | Ok _ =>
      emitted (updateNameBtn_click env) w
      = [update_user_name (trim (userNameInput (form w))); get_user_profile] /\
      alerts (run (updateNameBtn_click env) w)
      = (alerts w ++ [mkAlert "Name updated successfully!" "success"])%list
  | Throw _ =>
      emitted (updateNameBtn_click env) w
      = [update_user_name (trim (userNameInput (form w)))] /\
      alerts (run (updateNameBtn_click env) w)
      = (alerts w ++ [mkAlert "Failed to update name" "danger"])%list
  end /\
  session (run (updateNameBtn_click env) w) = session w /\
  form (run (updateNameBtn_click env) w) = form w /\
  page (run (updateNameBtn_click env) w) = page w.
Proof.
  intros Hactor Hname. unfold_handlers. step_handler.
  rewrite (truthy_nonempty _ Hname). step_handler.
  destruct (actor (session w)) as [svc|] eqn:Ha; [|congruence]. step_handler.
  destruct (reply_update_user_name env _) as [u|e]; step_handler.
  - rewrite Ha. step_handler. rewrite <- app_assoc, skipn_emitted.
    repeat split; reflexivity.
  - rewrite skipn_emitted. repeat split; reflexivity.
Qed.

Lemma updateName_outcome_witness :
  actor (session signed_in_world) <> None /\
  trim (userNameInput (form signed_in_world)) <> EmptyString /\
  emitted (updateNameBtn_click backend_down_env) signed_in_world
  = [update_user_name "Amina"].
Proof.
  split; [discriminate|]. split; [discriminate|].
  destruct (updateName_outcome backend_down_env signed_in_world) as ((He & _) & _);
    [discriminate | discriminate | exact He].
Defined.

(** X17.  The View handler passes to [get_document] whatever the
    [data-doc-id] attribute of the element hit by the click reads, the
    card's id on the button and [null] on the icon inside it, and makes no
    other call.  When the call returns a text, that text becomes the
    current document, the document actions are revealed and the formatted
    text is shown; when the call is rejected, the session is left alone
    and the response area reads "Error loading document". *)
Theorem viewDoc_outcome (env : Env) (w : World) (docId : option string) :
  actor (session w) <> None ->
  emitted (viewDocBtn_click env docId) w = [get_document docId] /\
  match reply_get_document env docId with
  | Ok content =>
      currentDocument (session (run (viewDocBtn_click env docId) w)) = Some content /\
      documentOutput_hidden (page (run (viewDocBtn_click env docId) w)) = false /\
      responseArea (page (run (viewDocBtn_click env docId) w)) = formatted content
  | Throw _ =>
      session (run (viewDocBtn_click env docId) w) = session w /\
      responseArea (page (run (viewDocBtn_click env docId) w))
      = "Error loading document"
  end.
Proof.
  intros Hactor. unfold viewDocBtn_click. unfold_handlers.
  destruct (actor (session w)) as [svc|] eqn:Ha; [|congruence].
  destruct (reply_get_document env docId) as [content|e]; step_handler;
    rewrite skipn_emitted; unfold formatted; repeat split; reflexivity.
Qed.

Lemma viewDoc_outcome_witness :
  actor (session signed_in_world) <> None /\
  emitted (viewDocBtn_click backend_down_env None) signed_in_world
  = [get_document None] /\
  responseArea (page (run (viewDocBtn_click backend_down_env None) signed_in_world))
  = "Error loading document".
Proof.
  split; [discriminate|].
  destruct (viewDoc_outcome backend_down_env signed_in_world None) as (He & _ & Hr);
    [discriminate|].
  split; [exact He | exact Hr].
Defined.

(** *** Busy state of the triggers *)

(** X18.  Each command touches its own trigger only.  For a trigger
    whose markup is plain text, possibly preceded by the spinner icon, and
    once validation has passed, on every way out of the handler the
    buttons after the command are the buttons before it with that one
    trigger enabled and carrying its busy label. *)
Theorem triggers_after_command (env : Env) (w : World) :
  (advicePrompt (form w) <> EmptyString ->
   simple_label (innerHTML (getAdviceBtn (buttons w))) ->
   buttons (run (getAdviceBtn_click env) w)
   = on_getAdviceBtn (fun b => mkButton false (busy_label b)) (buttons w)) /\
  (docPrompt (form w) <> EmptyString ->
   simple_label (innerHTML (generateDocBtn (buttons w))) ->
   buttons (run (generateDocBtn_click env) w)
   = on_generateDocBtn (fun b => mkButton false (busy_label b)) (buttons w)) /\
  (no_document (currentDocument (session w)) = false ->
   simple_label (innerHTML (saveDocBtn (buttons w))) ->
   buttons (run (saveDocBtn_click env) w)
   = on_saveDocBtn (fun b => mkButton false (busy_label b)) (buttons w)) /\
  (trim (userNameInput (form w)) <> EmptyString ->
   simple_label (innerHTML (updateNameBtn (buttons w))) ->
   buttons (run (updateNameBtn_click env) w)
   = on_updateNameBtn (fun b => mkButton false (busy_label b)) (buttons w)).
Proof.
  repeat split.
  - intros Hprompt _. unfold_handlers.
    rewrite (truthy_nonempty _ Hprompt). step_handler.
    destruct (actor (session w)) as [svc|] eqn:Ha; step_handler.
    + destruct (reply_generate_legal_advice env _) as [reply|e]; step_handler.
      * destruct (status reply =? "success"); step_handler;
          rewrite Ha; reflexivity.
      * rewrite Ha; reflexivity.
    + rewrite Ha; reflexivity.
  - intros Hprompt _. unfold_handlers.
    rewrite (truthy_nonempty _ Hprompt). step_handler.
    destruct (actor (session w)) as [svc|] eqn:Ha; step_handler.
    + destruct (reply_generate_legal_document env _) as [reply|e]; step_handler.
      * destruct (generated_document reply); step_handler;
          rewrite Ha; reflexivity.
      * rewrite Ha; reflexivity.
    + rewrite Ha; reflexivity.
  - intros Hdoc _. unfold_handlers. unfold no_document in Hdoc.
    step_handler. rewrite Hdoc. step_handler.
    autorewrite with wakili_frame. reflexivity.
  - intros Hname _. unfold_handlers.
    step_handler. rewrite (truthy_nonempty _ Hname). step_handler.
    destruct (actor (session w)) as [svc|] eqn:Ha; step_handler.
    + destruct (reply_update_user_name env _) as [u|e]; step_handler.
      * rewrite Ha; reflexivity.
      * reflexivity.
    + reflexivity.
Qed.

Lemma triggers_after_command_witness :
  advicePrompt (form signed_in_world) <> EmptyString /\
  simple_label (innerHTML (getAdviceBtn (buttons signed_in_world))) /\
  buttons (run (getAdviceBtn_click backend_down_env) signed_in_world)
  = mkButtons (mkButton false (spinner ++ "Get Advice"))
              (mkButton false "Generate Document")
              (mkButton false "Save") (mkButton false "Update").
Proof.
  assert (H : simple_label (innerHTML (getAdviceBtn (buttons signed_in_world))))
    by (exists "Get Advice"; split; [reflexivity | left; reflexivity]).
  split; [discriminate|]. split; [exact H|].
  rewrite (proj1 (triggers_after_command backend_down_env signed_in_world));
    [reflexivity | discriminate | exact H].
Defined.

(** *** The two fetches *)

(** X19.  Whatever the backend answers, the document list after a fetch
    is a single placeholder and never a card: the "no documents" line when
    the proxy exists and the reply is the empty list, the error line in
    every other case, a reply that holds documents included. *)
Theorem documents_list_after_fetch (env : Env) (w : World) :
  documentsList (page (run (loadUserDocuments env) w))
  = match actor (session w), reply_get_user_documents env with
    | Some _, Ok [] =>
        [Placeholder "text-muted" "No documents found. Generate one to get started!"]
    | _, _ => [Placeholder "text-danger" "Error loading documents"]
    end.
Proof.
  unfold run. rewrite loadUserDocuments_run. unfold documents_outcome. cbn [snd].
  destruct (actor (session w)); [|reflexivity].
  destruct (reply_get_user_documents env) as [[|d ds]|e]; reflexivity.
Qed.

(** X20.  The profile fetch never writes a view.  For every reply the
    page, the form, the session, the buttons and the notifications are
    what they were; the fetch leaves one line on the console, and one
    request if the proxy exists. *)
Theorem profile_fetch_writes_no_view (env : Env) (w : World) :
  page (run (loadUserProfile env) w) = page w /\
  form (run (loadUserProfile env) w) = form w /\
  session (run (loadUserProfile env) w) = session w /\
  buttons (run (loadUserProfile env) w) = buttons w /\
  alerts (run (loadUserProfile env) w) = alerts w /\
  List.length (console (run (loadUserProfile env) w)) = S (List.length (console w)) /\
  emitted (loadUserProfile env) w
  = match actor (session w) with
    | Some _ => [get_user_profile]
    | None => []
    end.
Proof.
  unfold emitted, run. rewrite loadUserProfile_run. cbn [snd].
  destruct (actor (session w)); cbn;
    rewrite ?skipn_emitted, ?skipn_all, ?length_app; cbn;
    repeat split; try reflexivity; lia.
Qed.

(** *** Signing in *)

Lemma window_onload_signed_out (env : Env) (w : World) :
  detect env = Ok false ->
  run (window_onload env) w
  = on_page (set_loginButton_onclick
               (Some (if plug env then plug_login else identity_login))) w.
Proof.
  unfold detect, window_onload, onload_try, initII, initII_try, run, try_catch,
    bind, await, lift.
  destruct (plug env).
  - destruct (plug_createAgent env); [|discriminate].
    intros ->. reflexivity.
  - destruct (AuthClient_create env); [|discriminate].
    intros ->. reflexivity.
Qed.

(** X21.  When the provider reports nobody signed in, the bootstrap does
    nothing but install the login closure, the wallet's when the wallet
    is there and the identity service's otherwise: no request, no
    notification, both views left as they were. *)
Theorem onload_signed_out (env : Env) (w : World) :
  detect env = Ok false ->
  run (window_onload env) w
  = on_page (set_loginButton_onclick
               (Some (if plug env then plug_login else identity_login))) w.
Proof. apply window_onload_signed_out. Qed.

Lemma onload_signed_out_witness :
  detect signed_out_env = Ok false /\
  loginButton_onclick (page (run (window_onload signed_out_env) fresh_world))
  = Some plug_login.
Proof.
  split; [reflexivity|].
  rewrite (onload_signed_out signed_out_env fresh_world eq_refl). reflexivity.
Defined.

(** X22.  When provider detection or the authenticated-state check
    throws, no login closure is installed: on a page whose login button
    had none, a click on the button after the failed bootstrap does
    nothing at all. *)
Theorem login_dead_after_failed_detection (env : Env) (w : World) (e : error) :
  detect env = Throw e ->
  loginButton_onclick (page w) = None ->
  loginButton_click env (run (window_onload env) w)
  = (Ok tt, run (window_onload env) w).
Proof.
  intros Hd Hnone.
  assert (Hpage : page (run (window_onload env) w) = page w).
  { revert Hd.
    unfold detect, window_onload, onload_try, initII, initII_try, run, try_catch,
      bind, await, lift, console_error, showAlert.
    destruct (plug env).
    - destruct (plug_createAgent env); [|reflexivity].
      destruct (isAuthenticated env) as [b|e0]; [discriminate|reflexivity].
    - destruct (AuthClient_create env); [|reflexivity].
      destruct (isAuthenticated env) as [b|e0]; [discriminate|reflexivity]. }
  unfold loginButton_click, bind, get. rewrite Hpage, Hnone. reflexivity.
Qed.

Lemma login_dead_after_failed_detection_witness :
  detect no_provider_env = Throw (Error "IndexedDB unavailable") /\
  loginButton_onclick (page fresh_world) = None /\
  loginButton_click no_provider_env (run (window_onload no_provider_env) fresh_world)
  = (Ok tt, run (window_onload no_provider_env) fresh_world).
Proof.
  split; [reflexivity|]. split; [reflexivity|].
  apply (login_dead_after_failed_detection no_provider_env fresh_world
           (Error "IndexedDB unavailable")); reflexivity.
Defined.

(** X23.  Signing in composes with the bootstrap.  After a bootstrap that
    found nobody signed in, a click on the login button starts the login
    of the installed provider; if the login goes through and the provider
    then reports an authenticated user, the click continues exactly as
    [handleAuthenticated] does, and if the provider still reports nobody,
    the click ends there with the login view unchanged. *)
Theorem sign_in_after_bootstrap (env : Env) (w : World) (u : unit) :
  detect env = Ok false ->
  authClient_login env = Ok u ->
  loginButton_click env (run (window_onload env) w)
  = match isAuthenticated_after_login env with
    | Ok true =>
        handleAuthenticated env
          (add_call (login (if plug env then None else Some "https://identity.ic0.app"))
                    (run (window_onload env) w))
    | Ok false =>
        (Ok tt,
         add_call (login (if plug env then None else Some "https://identity.ic0.app"))
                  (run (window_onload env) w))
    | Throw e =>
        (Throw e,
         add_call (login (if plug env then None else Some "https://identity.ic0.app"))
                  (run (window_onload env) w))
    end.
Proof.
  intros Hd Hl. rewrite (window_onload_signed_out env w Hd).
  unfold loginButton_click, bind, get, lift, await.
  cbn -[handleAuthenticated]. rewrite Hl.
  destruct (plug env);
    destruct (isAuthenticated_after_login env) as [[|]|e]; reflexivity.
Qed.

Lemma sign_in_after_bootstrap_witness :
  detect signed_out_env = Ok false /\
  authClient_login signed_out_env = Ok tt /\
  loginButton_click signed_out_env (run (window_onload signed_out_env) fresh_world)
  = handleAuthenticated signed_out_env
      (add_call (login None) (run (window_onload signed_out_env) fresh_world)).
Proof.
  split; [reflexivity|]. split; [reflexivity|].
  rewrite (sign_in_after_bootstrap signed_out_env fresh_world tt eq_refl eq_refl).
  reflexivity.
Defined.

(** X24.  On a network other than [ic], a root-key fetch that fails stops
    [handleAuthenticated] there: the exception goes to the caller, the
    root-key request to the local replica is the only request sent, and
    neither proxy is bound, so no canister call can follow. *)
Theorem root_key_failure_binds_no_proxy (env : Env) (w : World) (e : error) :
  DFX_NETWORK env <> Some "ic" ->
  agent_fetchRootKey env = Throw e ->
  fst (handleAuthenticated env w) = Throw e /\
  emitted (handleAuthenticated env) w = [fetchRootKey "http://127.0.0.1:4943"] /\
  actor (session (run (handleAuthenticated env) w)) = actor (session w) /\
  internetIdentityActor (session (run (handleAuthenticated env) w))
  = internetIdentityActor (session w).
Proof.
  intros Hnet Hkey. apply not_ic_spec in Hnet.
  assert (Hhost : host env = "http://127.0.0.1:4943").
  { unfold host. unfold not_ic in Hnet.
    destruct (DFX_NETWORK env) as [n|]; [|reflexivity].
    destruct (n =? "ic"); [discriminate|reflexivity]. }
  unfold emitted, run, handleAuthenticated, bind, lift, await.
  rewrite Hnet, Hkey, Hhost. cbn. rewrite skipn_emitted. repeat split; reflexivity.
Qed.

Lemma root_key_failure_binds_no_proxy_witness :
  DFX_NETWORK root_key_down_env <> Some "ic" /\
  agent_fetchRootKey root_key_down_env = Throw (Error "Failed to fetch") /\
  actor (session (run (handleAuthenticated root_key_down_env) fresh_world)) = None.
Proof.
  split; [discriminate|]. split; [reflexivity|].
  destruct (root_key_failure_binds_no_proxy root_key_down_env fresh_world
              (Error "Failed to fetch")) as (_ & _ & Ha & _);
    [discriminate | reflexivity | exact Ha].
Defined.

(** X25.  When neither the root-key fetch nor the construction of the
    proxies fails, [handleAuthenticated] ends normally with the principal
    recorded and both proxies bound, and it sends, in this order, the
    root-key request (on a network other than [ic] only), the profile
    fetch and the document-list fetch. *)
Theorem handleAuthenticated_success (env : Env) (w : World) :
  (if not_ic env then agent_fetchRootKey env else Ok tt) = Ok tt ->
  createActor env wakili_backend = Ok tt ->
  createActor env internet_identity = Ok tt ->
  fst (handleAuthenticated env w) = Ok tt /\
  session (run (handleAuthenticated env) w)
  = mkSession (Some wakili_backend) (Some internet_identity)
              (currentDocument (session w)) (Some (principal env)) /\
  emitted (handleAuthenticated env) w
  = ((if not_ic env then [fetchRootKey (host env)] else [])
       ++ [get_user_profile; get_user_documents])%list.
Proof.
  intros Hkey Hb Hi.
  unfold emitted, run, handleAuthenticated, bind, lift, eval, await, ret, spawn.
  destruct (not_ic env); rewrite ?Hkey, Hb, Hi;
    step_handler; autorewrite with wakili_frame; step_handler;
    rewrite <- ?app_assoc, skipn_emitted; repeat split; reflexivity.
Qed.

Lemma handleAuthenticated_success_witness :
  (if not_ic local_env then agent_fetchRootKey local_env else Ok tt) = Ok tt /\
  createActor local_env wakili_backend = Ok tt /\
  createActor local_env internet_identity = Ok tt /\
  emitted (handleAuthenticated local_env) fresh_world
  = [fetchRootKey "http://127.0.0.1:4943"; get_user_profile; get_user_documents].
Proof.
  repeat (split; [reflexivity|]).
  destruct (handleAuthenticated_success local_env fresh_world eq_refl eq_refl eq_refl)
    as (_ & _ & He).
  exact He.
Defined.
